(** * earn-points: the points screens and the [user_profiles] migration

    A shallow embedding of the application's three screens (the splash
    router [IndexScreen], [HomeScreen], [ProfileScreen]) and of the SQL
    migration that provisions [user_profiles], followed by the properties
    proved about them. *)

From Stdlib Require Import ZArith List String Bool Lia.
Import ListNotations.

Open Scope string_scope.
Open Scope Z_scope.

(** ** Values shared by the screens *)

(** The [user] object handed out by [useAuth()].  [user_ref] stands for the
    identity of the JavaScript object (what [Object.is] compares), [user_id]
    for its [id] field. *)
Record User := mkUser { user_ref : nat; user_id : string }.

(** [interface UserProfile] of both screens, as the rows arrive at run
    time.  The interface declares every field a string or a number, but
    the row is whatever the store returns, and the columns [full_name],
    [points] and [created_at] are nullable: [None] is [null]. *)
Record UserProfile := mkUserProfile {
  id : string;
  email : string;
  full_name : option string;
  points : option Z;
  created_at : option string
}.

(** [v || 'User']: [null] and the empty string are falsy. *)
Definition orUser (v : option string) : string :=
  match v with
  | Some n => if String.eqb n "" then "User" else n
  | None => "User"
  end.

(** What a component function gives when it does not return an element. *)
Inductive JsError := TypeError.

(** [ToNumber] on a number or [null], as the operators [>=] and [/] apply
    it: [null] counts as 0. *)
Definition ToNumber (v : option Z) : Z :=
  match v with
  | Some z => z
  | None => 0
  end.

(** What [await supabase.from(..).select(..).eq(..).single()] gives back:
    an object with a [data] and an [error] field, either of which may be
    [null]. *)
Record PostgrestResponse := mkResponse {
  data : option UserProfile;
  error : option string
}.

(** How the awaited promise settles: with a response object, or by throwing. *)
Inductive Settled :=
| Fulfilled (r : PostgrestResponse)
| Rejected (reason : string).

(** The observable actions of a screen's handlers, in program order. *)
Inductive Effect :=
| SelectSingle (table columns eq_column eq_value : string)
| ConsoleError (label payload : string)
| AlertAlert (title message : string)
| SetUserProfile (p : option UserProfile)
| SetLoading (b : bool)
| SetRefreshing (b : bool).

(** The three [useState] cells of a profile-showing screen. *)
Record ScreenState := mkState {
  userProfile : option UserProfile;
  loading : bool;
  refreshing : bool
}.

(** [useState(null)], [useState(true)], [useState(false)]. *)
Definition initialState : ScreenState :=
  {| userProfile := None; loading := true; refreshing := false |}.

Definition applyEffect (e : Effect) (st : ScreenState) : ScreenState :=
  match e with
  | SetUserProfile p =>
      {| userProfile := p; loading := loading st; refreshing := refreshing st |}
  | SetLoading b =>
      {| userProfile := userProfile st; loading := b; refreshing := refreshing st |}
  | SetRefreshing b =>
      {| userProfile := userProfile st; loading := loading st; refreshing := b |}
  | SelectSingle _ _ _ _ | ConsoleError _ _ | AlertAlert _ _ => st
  end.

(** The state after a whole handler has run. *)
Definition runEffects (es : list Effect) (st : ScreenState) : ScreenState :=
  fold_left (fun s e => applyEffect e s) es st.

(** Every state the screen passes through while a handler runs, the
    starting state first. *)
Fixpoint statesDuring (es : list Effect) (st : ScreenState) : list ScreenState :=
  match es with
  | [] => [st]
  | e :: es' => st :: statesDuring es' (applyEffect e st)
  end.

Definition isQuery (e : Effect) : bool :=
  match e with SelectSingle _ _ _ _ => true | _ => false end.

Definition isAlert (e : Effect) : bool :=
  match e with AlertAlert _ _ => true | _ => false end.

Definition isSetUserProfile (e : Effect) : bool :=
  match e with SetUserProfile _ => true | _ => false end.

(** A fetch that fails: the response carries an error, or the call threw. *)
Definition fetchFailed (s : Settled) : bool :=
  match s with
  | Fulfilled r => match error r with Some _ => true | None => false end
  | Rejected _ => true
  end.

(** The tier object returned by a classifier. *)
Record Membership := mkMembership {
  level : string;
  color : string;
  icon : option string
}.

(** The order of the tiers, lowest first. *)
Definition tierRank (tier : string) : nat :=
  if String.eqb tier "Diamond" then 3
  else if String.eqb tier "Gold" then 2
  else if String.eqb tier "Silver" then 1
  else 0.

(** ** HomeScreen *)

Module HomeScreen.

(** [fetchUserProfile]: nothing at all without a user; otherwise one
    query, then by its outcome an alert or [setUserProfile(data)], and
    [setLoading(false)] from the [finally] block. *)
Definition fetchUserProfile (user : option User) (res : Settled) : list Effect :=
  match user with
  | None => []
  | Some u =>
      SelectSingle "user_profiles" "*" "id" (user_id u) ::
      (match res with
       | Fulfilled r =>
           match error r with
           | Some e =>
               [ConsoleError "Error fetching profile:" e;
                AlertAlert "Error" "Failed to load profile data"]
           | None => [SetUserProfile (data r)]
           end
       | Rejected e =>
           [ConsoleError "Error:" e;
            AlertAlert "Error" "Something went wrong"]
       end) ++ [SetLoading false]
  end.

Definition onRefresh (user : option User) (res : Settled) : list Effect :=
  SetRefreshing true :: fetchUserProfile user res ++ [SetRefreshing false].

Definition getMembershipLevel (points : Z) : Membership :=
  if points >=? 10000 then mkMembership "Diamond" "#8B5CF6" None
  else if points >=? 5000 then mkMembership "Gold" "#F59E0B" None
  else if points >=? 1000 then mkMembership "Silver" "#6B7280" None
  else mkMembership "Bronze" "#92400E" None.

(** What the component function gives: one of its two element trees, or
    an exception thrown while the tree is built. *)
Inductive View :=
| LoadingView (text : string)
| ContentView (nameText pointsValue : string)
              (membershipBadge : option (string * string))
              (refreshControl : bool)
| Throws (e : JsError).

Section Render.
(** [Number.prototype.toLocaleString], which depends on the device's
    locale. *)
Variable toLocaleString : Z -> string.

(** [formatPoints]: [points.toLocaleString()].  On [null] the method call
    throws a [TypeError]: [None]. *)
Definition formatPoints (points : option Z) : option string :=
  option_map toLocaleString points.

Definition render (st : ScreenState) : View :=
  if loading st then LoadingView "Loading..."
  else
    let membershipInfo :=
        option_map (fun p => getMembershipLevel (ToNumber (points p)))
                   (userProfile st) in
    match (match userProfile st with
           | Some p => formatPoints (points p)
           | None => Some "0"
           end) with
    | None => Throws TypeError
    | Some pointsValue =>
        ContentView
          ((match userProfile st with
            | Some p => orUser (full_name p)
            | None => "User"
            end) ++ "!")
          pointsValue
          (option_map (fun m => (level m ++ " Member", color m)) membershipInfo)
          (refreshing st)
    end.
End Render.

(** The text of the points card, when the screen shows one. *)
Definition pointsValue (v : View) : option string :=
  match v with
  | LoadingView _ => None
  | ContentView _ pv _ _ => Some pv
  | Throws _ => None
  end.

(** A child of a [<Text>] element: a number or a string. *)
Inductive TextChild :=
| NumberChild (n : Z)
| StringChild (s : string).

(** The "Level" stat card:
    [userProfile ? Math.floor(userProfile.points / 100) : '0'].  On an
    integer balance the floor of the quotient is [Z.div]. *)
Definition levelStat (st : ScreenState) : TextChild :=
  match userProfile st with
  | Some p => NumberChild (ToNumber (points p) / 100)
  | None => StringChild "0"
  end.

End HomeScreen.

(** ** ProfileScreen *)

Module ProfileScreen.

Definition fetchUserProfile (user : option User) (res : Settled) : list Effect :=
  match user with
  | None => []
  | Some u =>
      SelectSingle "user_profiles" "*" "id" (user_id u) ::
      (match res with
       | Fulfilled r =>
           match error r with
           | Some e =>
               [ConsoleError "Error fetching profile:" e;
                AlertAlert "Error" "Failed to load profile data"]
           | None => [SetUserProfile (data r)]
           end
       | Rejected e =>
           [ConsoleError "Error:" e;
            AlertAlert "Error" "Something went wrong"]
       end) ++ [SetLoading false]
  end.

Definition onRefresh (user : option User) (res : Settled) : list Effect :=
  SetRefreshing true :: fetchUserProfile user res ++ [SetRefreshing false].

Definition getMembershipLevel (points : Z) : Membership :=
  if points >=? 10000 then mkMembership "Diamond" "#8B5CF6" (Some "💎")
  else if points >=? 5000 then mkMembership "Gold" "#F59E0B" (Some "🏆")
  else if points >=? 1000 then mkMembership "Silver" "#6B7280" (Some "🥈")
  else mkMembership "Bronze" "#92400E" (Some "🥉").

Inductive View :=
| LoadingView (text : string)
| ContentView (profileName pointsText : string)
              (membershipBadge : option (string * string * string))
              (emailValue : option string)
              (refreshControl : bool)
| Throws (e : JsError).

Section Render.
Variable toLocaleString : Z -> string.

Definition render (st : ScreenState) : View :=
  if loading st then LoadingView "Loading..."
  else
    let membershipInfo :=
        option_map (fun p => getMembershipLevel (ToNumber (points p)))
                   (userProfile st) in
    (* [userProfile?.points.toLocaleString() || '0']: the optional chain
       guards [userProfile] only; on [points] null the call throws. *)
    match (match userProfile st with
           | Some p =>
               option_map (fun z => let s := toLocaleString z in
                                    if String.eqb s "" then "0" else s)
                          (points p)
           | None => Some "0"
           end) with
    | None => Throws TypeError
    | Some pointsText =>
        ContentView
          (match userProfile st with
           | Some p => orUser (full_name p)
           | None => "User"
           end)
          (pointsText ++ " Points")
          (option_map
             (fun m => (match icon m with Some i => i | None => "" end,
                        level m, color m))
             membershipInfo)
          (option_map email (userProfile st))
          (refreshing st)
    end.
End Render.

Definition pointsText (v : View) : option string :=
  match v with
  | LoadingView _ => None
  | ContentView _ pt _ _ _ => Some pt
  | Throws _ => None
  end.

(** What the sign-out handler does besides showing the prompt. *)
Inductive SignOutEffect :=
| CallSignOut
| RouterReplace (href : string).

(** How [await signOut()] settles. *)
Inductive Completion :=
| Resolved
| Threw (reason : string).

Record AlertButton := mkButton {
  buttonText : string;
  buttonStyle : string;
  onPress : option (Completion -> list SignOutEffect)
}.

Record AlertDialog := mkDialog {
  dialogTitle : string;
  dialogMessage : string;
  buttons : list AlertButton
}.

(** [handleSignOut]: the prompt handed to [Alert.alert].  The "Sign Out"
    button's handler awaits [signOut()] and then replaces the route; when
    the awaited call throws, the statement after it is not reached. *)
Definition handleSignOut : AlertDialog :=
  mkDialog "Sign Out" "Are you sure you want to sign out?"
    [ mkButton "Cancel" "cancel" None;
      mkButton "Sign Out" "destructive"
        (Some (fun c => CallSignOut ::
                        match c with
                        | Resolved => [RouterReplace "/(auth)/sign-in"]
                        | Threw _ => []
                        end)) ].

(** Pressing the [n]-th button of a prompt. *)
Definition press (d : AlertDialog) (n : nat) (c : Completion) : list SignOutEffect :=
  match nth_error (buttons d) n with
  | Some b =>
      match onPress b with
      | Some handler => handler c
      | None => []
      end
  | None => []
  end.

End ProfileScreen.

(** ** IndexScreen, the splash router *)

Module IndexScreen.

Inductive RouterCall := Replace (href : string).

Inductive View := ActivityIndicator (size color : string).

(** The value of [useAuth()] at one render. *)
Record Auth := mkAuth { user : option User; authLoading : bool }.

(** The component's return value; it does not look at its state. *)
Definition render (a : Auth) : View := ActivityIndicator "large" "#FFFFFF".

(** The body of the [useEffect] callback. *)
Definition effect (a : Auth) : list RouterCall :=
  if negb (authLoading a) then
    match user a with
    | Some _ => [Replace "/(tabs)"]
    | None => [Replace "/(auth)/sign-in"]
    end
  else [].

(** [Object.is] on the entries of the dependency array [[user, loading]]. *)
Definition sameUser (a b : option User) : bool :=
  match a, b with
  | None, None => true
  | Some x, Some y => Nat.eqb (user_ref x) (user_ref y)
  | _, _ => false
  end.

Definition sameDeps (a b : Auth) : bool :=
  sameUser (user a) (user b) && Bool.eqb (authLoading a) (authLoading b).

(** React runs the effect after the first render and after each later
    render whose dependencies differ from the previous render's.  [prev]
    is the previous render's dependencies ([None] before mounting);
    [renders] are the successive values of the auth context. *)
Fixpoint navigation (prev : option Auth) (renders : list Auth) : list RouterCall :=
  match renders with
  | [] => []
  | a :: rest =>
      (match prev with
       | Some p => if sameDeps p a then [] else effect a
       | None => effect a
       end) ++ navigation (Some a) rest
  end.

End IndexScreen.

(** ** The store provisioned by the migration *)

Module Db.

Definition uuid := string.
Definition timestamptz := Z.

(** *** Values *)

#[local] Unset Elimination Schemes.
Inductive jsonb :=
| JNull
| JBool (b : bool)
| JNumber (n : Z)
| JString (s : string)
| JArray (items : list jsonb)
| JObject (fields : list (string * jsonb)).
#[local] Set Elimination Schemes.

(** A row of [auth.users], as far as [handle_new_user] reads it. *)
Record auth_user := mkAuthUser {
  au_id : uuid;
  au_email : option string;
  raw_user_meta_data : option jsonb
}.

(** A tuple of [user_profiles]; [None] is SQL NULL. *)
Record user_profile := mkProfile {
  id : option uuid;
  email : option string;
  full_name : option string;
  points : option Z;
  created_at : option timestamptz;
  updated_at : option timestamptz
}.

(** *** Catalog *)

Inductive command := SELECT | INSERT | UPDATE | DELETE.
Inductive role := anon | authenticated.
Inductive timing := BEFORE | AFTER.

(** The row-security expressions of the migration. *)
Inductive rls_expr := auth_uid_eq_id.

Record policy := mkPolicy {
  polname : string;
  poltable : string;
  polcmd : command;
  polroles : list role;
  polqual : option rls_expr;        (* USING *)
  polwithcheck : option rls_expr    (* WITH CHECK *)
}.

Inductive function_body :=
| handle_new_user_body
| update_updated_at_column_body.

Record trigger := mkTrigger {
  tgname : string;
  tgtable : string;
  tgtiming : timing;
  tgevent : command;
  tgfunction : string
}.

Record table := mkTable { relname : string; relrowsecurity : bool }.

Record store := mkStore {
  tables : list table;
  policies : list policy;
  functions : list (string * function_body);
  triggers : list trigger;
  auth_users : list auth_user;
  user_profiles : list user_profile
}.

Inductive sql_error :=
| duplicate_table (name : string)
| undefined_table (name : string)
| duplicate_object (kind name on_table : string)
| duplicate_function (name : string)
| undefined_function (name : string)
| undefined_column (name : string)
| not_null_violation (column : string)
| unique_violation (constraint : string)
| foreign_key_violation (constraint : string)
| row_security_violation (on_table : string)
| numeric_value_out_of_range (type_name : string).

Definition command_eqb (a b : command) : bool :=
  match a, b with
  | SELECT, SELECT | INSERT, INSERT | UPDATE, UPDATE | DELETE, DELETE => true
  | _, _ => false
  end.

Definition role_eqb (a b : role) : bool :=
  match a, b with
  | anon, anon | authenticated, authenticated => true
  | _, _ => false
  end.

Definition timing_eqb (a b : timing) : bool :=
  match a, b with
  | BEFORE, BEFORE | AFTER, AFTER => true
  | _, _ => false
  end.

Definition has_table (name : string) (s : store) : bool :=
  existsb (fun t => String.eqb (relname t) name) (tables s).

Definition has_policy (name on_table : string) (s : store) : bool :=
  existsb (fun p => String.eqb (polname p) name && String.eqb (poltable p) on_table)
          (policies s).

Definition lookup_function (name : string) (s : store) : option function_body :=
  option_map snd (find (fun f => String.eqb (fst f) name) (functions s)).

(** [SELECT 1 FROM pg_trigger WHERE tgname = name]: any table. *)
Definition pg_trigger_named (name : string) (s : store) : bool :=
  existsb (fun t => String.eqb (tgname t) name) (triggers s).

Definition has_trigger (name on_table : string) (s : store) : bool :=
  existsb (fun t => String.eqb (tgname t) name && String.eqb (tgtable t) on_table)
          (triggers s).

(** *** Data definition statements *)

Inductive statement :=
| CREATE_TABLE (if_not_exists : bool) (name : string) (references : list string)
| ALTER_TABLE_ENABLE_ROW_LEVEL_SECURITY (name : string)
| CREATE_POLICY (p : policy)
| CREATE_FUNCTION (or_replace : bool) (name : string) (body : function_body)
| CREATE_TRIGGER (t : trigger)
| DO_IF_NOT_EXISTS_PG_TRIGGER (name : string) (body : statement).

Definition with_tables (ts : list table) (s : store) : store :=
  mkStore ts (policies s) (functions s) (triggers s) (auth_users s) (user_profiles s).

Definition with_policies (ps : list policy) (s : store) : store :=
  mkStore (tables s) ps (functions s) (triggers s) (auth_users s) (user_profiles s).

Definition with_functions (fs : list (string * function_body)) (s : store) : store :=
  mkStore (tables s) (policies s) fs (triggers s) (auth_users s) (user_profiles s).

Definition with_triggers (ts : list trigger) (s : store) : store :=
  mkStore (tables s) (policies s) (functions s) ts (auth_users s) (user_profiles s).

Definition with_auth_users (us : list auth_user) (s : store) : store :=
  mkStore (tables s) (policies s) (functions s) (triggers s) us (user_profiles s).

Definition with_user_profiles (rs : list user_profile) (s : store) : store :=
  mkStore (tables s) (policies s) (functions s) (triggers s) (auth_users s) rs.

Definition enable_rls (name : string) (t : table) : table :=
  if String.eqb (relname t) name then mkTable (relname t) true else t.

(** One statement against the store: the new store, or the error that
    the engine raises. *)
Fixpoint exec (st : statement) (s : store) : sql_error + store :=
  match st with
  | CREATE_TABLE if_not_exists name references =>
      if has_table name s then
        if if_not_exists then inr s else inl (duplicate_table name)
      else
        match find (fun r => negb (has_table r s)) references with
        | Some r => inl (undefined_table r)
        | None =>
            let s' := with_tables (tables s ++ [mkTable name false]) s in
            inr (if String.eqb name "user_profiles"
                 then with_user_profiles [] s' else s')
        end
  | ALTER_TABLE_ENABLE_ROW_LEVEL_SECURITY name =>
      if has_table name s
      then inr (with_tables (map (enable_rls name) (tables s)) s)
      else inl (undefined_table name)
  | CREATE_POLICY p =>
      if negb (has_table (poltable p) s) then inl (undefined_table (poltable p))
      else if has_policy (polname p) (poltable p) s
      then inl (duplicate_object "policy" (polname p) (poltable p))
      else inr (with_policies (policies s ++ [p]) s)
  | CREATE_FUNCTION or_replace name body =>
      match lookup_function name s with
      | Some _ =>
          if or_replace
          then inr (with_functions
                      (map (fun f => if String.eqb (fst f) name
                                     then (name, body) else f)
                           (functions s)) s)
          else inl (duplicate_function name)
      | None => inr (with_functions (functions s ++ [(name, body)]) s)
      end
  | CREATE_TRIGGER t =>
      if negb (has_table (tgtable t) s) then inl (undefined_table (tgtable t))
      else match lookup_function (tgfunction t) s with
           | None => inl (undefined_function (tgfunction t))
           | Some _ =>
               if has_trigger (tgname t) (tgtable t) s
               then inl (duplicate_object "trigger" (tgname t) (tgtable t))
               else inr (with_triggers (triggers s ++ [t]) s)
           end
  | DO_IF_NOT_EXISTS_PG_TRIGGER name body =>
      if negb (pg_trigger_named name s) then exec body s else inr s
  end.

(** A script runs statement by statement and stops at the first error;
    what the earlier statements did stays. *)
Fixpoint run_script (script : list statement) (s : store)
  : store * option sql_error :=
  match script with
  | [] => (s, None)
  | st :: rest =>
      match exec st s with
      | inl e => (s, Some e)
      | inr s' => run_script rest s'
      end
  end.

(** *** The migration *)

Definition users_can_read_own_profile : policy :=
  mkPolicy "Users can read own profile" "user_profiles" SELECT
           [authenticated] (Some auth_uid_eq_id) None.

Definition users_can_update_own_profile : policy :=
  mkPolicy "Users can update own profile" "user_profiles" UPDATE
           [authenticated] (Some auth_uid_eq_id) (Some auth_uid_eq_id).

Definition users_can_insert_own_profile : policy :=
  mkPolicy "Users can insert own profile" "user_profiles" INSERT
           [authenticated] None (Some auth_uid_eq_id).

Definition on_auth_user_created : trigger :=
  mkTrigger "on_auth_user_created" "auth.users" AFTER INSERT "handle_new_user".

Definition update_user_profiles_updated_at : trigger :=
  mkTrigger "update_user_profiles_updated_at" "user_profiles" BEFORE UPDATE
            "update_updated_at_column".

Definition migration : list statement :=
  [ CREATE_TABLE true "user_profiles" ["auth.users"];
    ALTER_TABLE_ENABLE_ROW_LEVEL_SECURITY "user_profiles";
    CREATE_POLICY users_can_read_own_profile;
    CREATE_POLICY users_can_update_own_profile;
    CREATE_POLICY users_can_insert_own_profile;
    CREATE_FUNCTION true "handle_new_user" handle_new_user_body;
    DO_IF_NOT_EXISTS_PG_TRIGGER "on_auth_user_created"
      (CREATE_TRIGGER on_auth_user_created);
    CREATE_FUNCTION true "update_updated_at_column" update_updated_at_column_body;
    DO_IF_NOT_EXISTS_PG_TRIGGER "update_user_profiles_updated_at"
      (CREATE_TRIGGER update_user_profiles_updated_at) ].

(** A store that has the identity table and nothing else. *)
Definition fresh_store : store :=
  mkStore [mkTable "auth.users" false] [] [] [] [] [].

Definition count_tables (name : string) (s : store) : nat :=
  List.length (filter (fun t => String.eqb (relname t) name) (tables s)).

Definition count_policies (name on_table : string) (s : store) : nat :=
  List.length (filter (fun p => String.eqb (polname p) name
                           && String.eqb (poltable p) on_table) (policies s)).

Definition count_triggers (name : string) (s : store) : nat :=
  List.length (filter (fun t => String.eqb (tgname t) name) (triggers s)).

(** A store carries the migration's catalog when its tables, policies,
    functions and triggers are the ones the migration leaves in a store
    that had only the identity table; its rows are arbitrary. *)
Definition provisioned (s : store) : Prop :=
  tables s = tables (fst (run_script migration fresh_store)) /\
  policies s = policies (fst (run_script migration fresh_store)) /\
  functions s = functions (fst (run_script migration fresh_store)) /\
  triggers s = triggers (fst (run_script migration fresh_store)).

(** *** Rows: constraints and defaults of [CREATE TABLE user_profiles] *)

(** SQL [=] on nullable text: never true when a side is NULL. *)
Definition sql_eqb (a b : option string) : bool :=
  match a, b with
  | Some x, Some y => String.eqb x y
  | _, _ => false
  end.

(** What an [INSERT] gives for a column: nothing (the column is left out
    of the column list, or [DEFAULT] is written), or a value, NULL included. *)
Inductive column_value (A : Type) :=
| DEFAULT
| VALUE (v : option A).
Arguments DEFAULT {A}.
Arguments VALUE {A} v.

Record profile_insert := mkInsert {
  ins_id : column_value uuid;
  ins_email : column_value string;
  ins_full_name : column_value string;
  ins_points : column_value Z;
  ins_created_at : column_value timestamptz;
  ins_updated_at : column_value timestamptz
}.

(** [points integer]: a value given for the column has to fit 32 bits;
    NULL always does. *)
Definition fits_integer (v : option Z) : bool :=
  match v with
  | Some z => (-2147483648 <=? z) && (z <=? 2147483647)
  | None => true
  end.

(** The values of an [INSERT] fit their columns. *)
Definition insert_fits (v : profile_insert) : bool :=
  match ins_points v with
  | DEFAULT => true
  | VALUE x => fits_integer x
  end.

Definition or_default {A : Type} (default : option A) (c : column_value A)
  : option A :=
  match c with
  | DEFAULT => default
  | VALUE v => v
  end.

(** The tuple built from an [INSERT]: [points] has [DEFAULT 0], the two
    timestamps [DEFAULT now()], the other columns no default. *)
Definition new_tuple (now : timestamptz) (v : profile_insert) : user_profile :=
  {| id := or_default None (ins_id v);
     email := or_default None (ins_email v);
     full_name := or_default None (ins_full_name v);
     points := or_default (Some 0) (ins_points v);
     created_at := or_default (Some now) (ins_created_at v);
     updated_at := or_default (Some now) (ins_updated_at v) |}.

(** [id uuid PRIMARY KEY REFERENCES auth.users(id)] and
    [email text UNIQUE NOT NULL], checked for tuple [r] against the
    other tuples of the table. *)
Definition check_constraints (s : store) (others : list user_profile)
           (r : user_profile) : option sql_error :=
  match id r, email r with
  | None, _ => Some (not_null_violation "id")
  | Some _, None => Some (not_null_violation "email")
  | Some i, Some e =>
      if existsb (fun o => sql_eqb (id o) (Some i)) others
      then Some (unique_violation "user_profiles_pkey")
      else if existsb (fun o => sql_eqb (email o) (Some e)) others
      then Some (unique_violation "user_profiles_email_key")
      else if negb (existsb (fun u => String.eqb (au_id u) i) (auth_users s))
      then Some (foreign_key_violation "user_profiles_id_fkey")
      else None
  end.

(** [INSERT INTO user_profiles] by the table's owner (no row security).
    A points value that does not fit the column is refused ("integer out
    of range") when the values are evaluated, before any constraint is
    looked at. *)
Definition insert_user_profiles (now : timestamptz) (v : profile_insert)
           (s : store) : sql_error + store :=
  if negb (has_table "user_profiles" s) then inl (undefined_table "user_profiles")
  else if negb (insert_fits v) then inl (numeric_value_out_of_range "integer")
  else
    let r := new_tuple now v in
    match check_constraints s (user_profiles s) r with
    | Some e => inl e
    | None => inr (with_user_profiles (user_profiles s ++ [r]) s)
    end.

Definition COALESCE {A : Type} (a : option A) (b : A) : option A :=
  match a with
  | Some x => Some x
  | None => Some b
  end.

(** [UPDATE user_profiles SET ...]: [None] leaves the column alone. *)
Record profile_update := mkUpdate {
  set_id : option (option uuid);
  set_email : option (option string);
  set_full_name : option (option string);
  set_points : option (option Z);
  set_created_at : option (option timestamptz);
  set_updated_at : option (option timestamptz)
}.

(** The values of an [UPDATE] fit their columns. *)
Definition update_fits (u : profile_update) : bool :=
  match set_points u with
  | Some x => fits_integer x
  | None => true
  end.

Definition assign {A : Type} (old : option A) (set : option (option A))
  : option A :=
  match set with
  | Some v => v
  | None => old
  end.

Definition apply_set (u : profile_update) (OLD : user_profile) : user_profile :=
  {| id := assign (id OLD) (set_id u);
     email := assign (email OLD) (set_email u);
     full_name := assign (full_name OLD) (set_full_name u);
     points := assign (points OLD) (set_points u);
     created_at := assign (created_at OLD) (set_created_at u);
     updated_at := assign (updated_at OLD) (set_updated_at u) |}.

(** [update_updated_at_column()]: [NEW.updated_at = now(); RETURN NEW]. *)
Definition update_updated_at_column (now : timestamptz) (NEW : user_profile)
  : user_profile :=
  {| id := id NEW;
     email := email NEW;
     full_name := full_name NEW;
     points := points NEW;
     created_at := created_at NEW;
     updated_at := Some now |}.

Definition triggers_on (on_table : string) (t : timing) (c : command)
           (s : store) : list trigger :=
  filter (fun g => String.eqb (tgtable g) on_table
                   && timing_eqb (tgtiming g) t
                   && command_eqb (tgevent g) c)
         (triggers s).

(** *** Triggers and data manipulation *)

Section Engine.
(** The text PostgreSQL prints for a [jsonb] value that is neither a
    string nor null (numbers, booleans, arrays, objects). *)
Variable jsonb_out : jsonb -> string.

(** The operator [->>]: the field of an object, as text. *)
Definition json_field_text (j : option jsonb) (key : string) : option string :=
  match j with
  | Some (JObject fields) =>
      match find (fun f => String.eqb (fst f) key) fields with
      | Some (_, JNull) => None
      | Some (_, JString t) => Some t
      | Some (_, v) => Some (jsonb_out v)
      | None => None
      end
  | _ => None
  end.

(** [handle_new_user()], run as the function's owner. *)
Definition handle_new_user (now : timestamptz) (NEW : auth_user) (s : store)
  : sql_error + store :=
  insert_user_profiles now
    {| ins_id := VALUE (Some (au_id NEW));
       ins_email := VALUE (au_email NEW);
       ins_full_name :=
         VALUE (COALESCE (json_field_text (raw_user_meta_data NEW) "full_name") "");
       ins_points := VALUE (Some 1000);
       ins_created_at := DEFAULT;
       ins_updated_at := DEFAULT |}
    s.

(** One [AFTER INSERT ON auth.users FOR EACH ROW] trigger firing.  The
    value returned by the function of an [AFTER] trigger is ignored. *)
Definition fire_after_insert (now : timestamptz) (NEW : auth_user)
           (t : trigger) (s : store) : sql_error + store :=
  match lookup_function (tgfunction t) s with
  | None => inl (undefined_function (tgfunction t))
  | Some handle_new_user_body => handle_new_user now NEW s
  | Some update_updated_at_column_body => inr s
  end.

Fixpoint fire_all_after_insert (now : timestamptz) (NEW : auth_user)
         (ts : list trigger) (s : store) : sql_error + store :=
  match ts with
  | [] => inr s
  | t :: rest =>
      match fire_after_insert now NEW t s with
      | inl e => inl e
      | inr s' => fire_all_after_insert now NEW rest s'
      end
  end.

(** A new identity: the row goes into [auth.users], then the
    [AFTER INSERT] triggers fire; an error in a trigger fails the whole
    insertion. *)
Definition insert_auth_user (now : timestamptz) (NEW : auth_user) (s : store)
  : sql_error + store :=
  if existsb (fun u => String.eqb (au_id u) (au_id NEW)) (auth_users s)
  then inl (unique_violation "users_pkey")
  else fire_all_after_insert now NEW
         (triggers_on "auth.users" AFTER INSERT s)
         (with_auth_users (auth_users s ++ [NEW]) s).

(** One [BEFORE UPDATE ON user_profiles FOR EACH ROW] trigger firing:
    the function's result replaces [NEW]. *)
Definition fire_before_update (now : timestamptz) (s : store) (t : trigger)
           (NEW : user_profile) : sql_error + user_profile :=
  match lookup_function (tgfunction t) s with
  | None => inl (undefined_function (tgfunction t))
  | Some update_updated_at_column_body => inr (update_updated_at_column now NEW)
  | Some handle_new_user_body => inl (undefined_column "raw_user_meta_data")
  end.

Fixpoint fire_all_before_update (now : timestamptz) (s : store)
         (ts : list trigger) (NEW : user_profile) : sql_error + user_profile :=
  match ts with
  | [] => inr NEW
  | t :: rest =>
      match fire_before_update now s t NEW with
      | inl e => inl e
      | inr NEW' => fire_all_before_update now s rest NEW'
      end
  end.

(** *** Row security *)

Definition eval_rls (e : rls_expr) (uid : option uuid) (r : user_profile) : bool :=
  match e with
  | auth_uid_eq_id => sql_eqb uid (id r)
  end.

Definition applies (c : command) (r : role) (p : policy) : bool :=
  String.eqb (poltable p) "user_profiles"
  && command_eqb (polcmd p) c
  && existsb (role_eqb r) (polroles p).

Definition rls_enabled (s : store) : bool :=
  existsb (fun t => String.eqb (relname t) "user_profiles" && relrowsecurity t)
          (tables s).

(** An existing row passes when some policy for the command and role
    has a [USING] expression that is true of it; with row security on
    and no such policy, no row passes. *)
Definition using_passes (s : store) (c : command) (r : role)
           (uid : option uuid) (row : user_profile) : bool :=
  if rls_enabled s then
    existsb (fun p => applies c r p
                      && match polqual p with
                         | Some e => eval_rls e uid row
                         | None => true
                         end)
            (policies s)
  else true.

(** A new row passes when some policy for the command and role has a
    [WITH CHECK] expression (its [USING] one when it has none) that is
    true of it. *)
Definition check_passes (s : store) (c : command) (r : role)
           (uid : option uuid) (row : user_profile) : bool :=
  if rls_enabled s then
    existsb (fun p => applies c r p
                      && match polwithcheck p, polqual p with
                         | Some e, _ => eval_rls e uid row
                         | None, Some e => eval_rls e uid row
                         | None, None => true
                         end)
            (policies s)
  else true.

(** *** Statements *)

(** The rows of an [UPDATE], one after the other: a row is a target
    when [target] holds of it; its new tuple is what [SET] gives, as
    changed by the [BEFORE UPDATE] triggers; it must pass [check] and
    the table's constraints. *)
Fixpoint update_rows (now : timestamptz) (s : store) (u : profile_update)
         (target check : user_profile -> bool)
         (done todo : list user_profile) : sql_error + list user_profile :=
  match todo with
  | [] => inr done
  | OLD :: rest =>
      if target OLD then
        match fire_all_before_update now s
                (triggers_on "user_profiles" BEFORE UPDATE s)
                (apply_set u OLD) with
        | inl e => inl e
        | inr NEW =>
            if negb (check NEW) then inl (row_security_violation "user_profiles")
            else
              match check_constraints s (done ++ rest) NEW with
              | Some e => inl e
              | None => update_rows now s u target check (done ++ [NEW]) rest
              end
        end
      else update_rows now s u target check (done ++ [OLD]) rest
  end.

(** [UPDATE user_profiles SET ... WHERE ...] by the table's owner.  The
    assigned values are brought to the column types first: a points value
    that does not fit is refused before any row is touched. *)
Definition update_user_profiles (now : timestamptz) (u : profile_update)
           (where_ : user_profile -> bool) (s : store) : sql_error + store :=
  if negb (has_table "user_profiles" s) then inl (undefined_table "user_profiles")
  else if negb (update_fits u) then inl (numeric_value_out_of_range "integer")
  else
    match update_rows now s u where_ (fun _ => true) [] (user_profiles s) with
    | inl e => inl e
    | inr rows => inr (with_user_profiles rows s)
    end.

(** The four statements as issued by a client with role [r] whose
    [auth.uid()] is [uid]. *)
Definition select_as (r : role) (uid : option uuid)
           (where_ : user_profile -> bool) (s : store) : list user_profile :=
  filter (fun row => where_ row && using_passes s SELECT r uid row)
         (user_profiles s).

Definition insert_as (r : role) (uid : option uuid) (now : timestamptz)
           (v : profile_insert) (s : store) : sql_error + store :=
  if negb (has_table "user_profiles" s) then inl (undefined_table "user_profiles")
  else if negb (insert_fits v) then inl (numeric_value_out_of_range "integer")
  else if negb (check_passes s INSERT r uid (new_tuple now v))
  then inl (row_security_violation "user_profiles")
  else insert_user_profiles now v s.

Definition update_as (r : role) (uid : option uuid) (now : timestamptz)
           (u : profile_update) (where_ : user_profile -> bool) (s : store)
  : sql_error + store :=
  if negb (has_table "user_profiles" s) then inl (undefined_table "user_profiles")
  else if negb (update_fits u) then inl (numeric_value_out_of_range "integer")
  else
    match update_rows now s u
            (fun row => where_ row
                        && using_passes s SELECT r uid row
                        && using_passes s UPDATE r uid row)
            (check_passes s UPDATE r uid)
            [] (user_profiles s) with
    | inl e => inl e
    | inr rows => inr (with_user_profiles rows s)
    end.

Definition delete_as (r : role) (uid : option uuid)
           (where_ : user_profile -> bool) (s : store) : store :=
  with_user_profiles
    (filter (fun row => negb (where_ row
                              && using_passes s SELECT r uid row
                              && using_passes s DELETE r uid row))
            (user_profiles s))
    s.

(** [DELETE FROM auth.users WHERE id = i]: [ON DELETE CASCADE] takes the
    profile rows that reference the identity with it. *)
Definition delete_auth_user (i : uuid) (s : store) : store :=
  with_user_profiles
    (filter (fun row => negb (sql_eqb (id row) (Some i))) (user_profiles s))
    (with_auth_users
       (filter (fun u => negb (String.eqb (au_id u) i)) (auth_users s)) s).

End Engine.

(** *** The table constraints, as a property of a store *)

(** Identities have distinct ids; profile rows have distinct ids and
    distinct emails, neither NULL, and each row's id is the id of an
    identity. *)
Definition constraints_hold (s : store) : Prop :=
  NoDup (map au_id (auth_users s))
  /\ NoDup (map id (user_profiles s))
  /\ NoDup (map email (user_profiles s))
  /\ Forall (fun r => exists i e,
                 id r = Some i /\ email r = Some e
                 /\ In i (map au_id (auth_users s)))
            (user_profiles s).


End Db.

(** * Properties *)

(** ** The membership classifier *)

(** C1. For every balance [p] (so for every [p >= 0]) each screen's
    classifier returns exactly one of the four tiers, with the colour of
    the table: Diamond/#8B5CF6 from 10000, Gold/#F59E0B on 5000..9999,
    Silver/#6B7280 on 1000..4999, Bronze/#92400E below 1000; the lower bounds
    are inclusive (999, 1000, 4999, 5000, 9999, 10000 fall as listed), and
    the two screens agree on the tier and its colour. *)
Theorem getMembershipLevel_tiers (p : Z) :
  let h := HomeScreen.getMembershipLevel p in
  let q := ProfileScreen.getMembershipLevel p in
  ((10000 <= p /\ level h = "Diamond" /\ color h = "#8B5CF6")
   \/ (5000 <= p <= 9999 /\ level h = "Gold" /\ color h = "#F59E0B")
   \/ (1000 <= p <= 4999 /\ level h = "Silver" /\ color h = "#6B7280")
   \/ (p < 1000 /\ level h = "Bronze" /\ color h = "#92400E"))
  /\ level q = level h /\ color q = color h
  /\ map (fun n => level (HomeScreen.getMembershipLevel n))
         [999; 1000; 4999; 5000; 9999; 10000]
     = ["Bronze"; "Silver"; "Silver"; "Gold"; "Gold"; "Diamond"]
  /\ map (fun n => level (ProfileScreen.getMembershipLevel n))
         [999; 1000; 4999; 5000; 9999; 10000]
     = ["Bronze"; "Silver"; "Silver"; "Gold"; "Gold"; "Diamond"].
Proof.
  cbv zeta.
  unfold HomeScreen.getMembershipLevel, ProfileScreen.getMembershipLevel.
  repeat split; try reflexivity.
  - destruct (Z.geb_spec p 10000) as [H1 | H1]; [left; cbn; repeat split; lia |].
    destruct (Z.geb_spec p 5000) as [H2 | H2];
      [right; left; cbn; repeat split; lia |].
    destruct (Z.geb_spec p 1000) as [H3 | H3];
      [right; right; left; cbn; repeat split; lia |].
    right; right; right; cbn; repeat split; lia.
  - destruct (p >=? 10000); [reflexivity |].
    destruct (p >=? 5000); [reflexivity |].
    destruct (p >=? 1000); reflexivity.
  - destruct (p >=? 10000); [reflexivity |].
    destruct (p >=? 5000); [reflexivity |].
    destruct (p >=? 1000); reflexivity.
Qed.

(** ** The profile fetch of the two screens *)

(** What a failed fetch does, as a list of effects. *)
Lemma failed_fetch_effects (u : User) (res : Settled) :
  fetchFailed res = true ->
  exists label payload message,
    HomeScreen.fetchUserProfile (Some u) res
    = [SelectSingle "user_profiles" "*" "id" (user_id u);
       ConsoleError label payload;
       AlertAlert "Error" message;
       SetLoading false]
    /\ (message = "Failed to load profile data" \/ message = "Something went wrong").
Proof.
  destruct res as [r | reason]; cbn.
  - destruct (error r) as [e |]; [intros _ | discriminate].
    exists "Error fetching profile:", e, "Failed to load profile data".
    split; [reflexivity | now left].
  - intros _.
    exists "Error:", reason, "Something went wrong".
    split; [reflexivity | now right].
Qed.

(** C6, as the code has it. A fetch that fails (an error in the response,
    or a thrown exception) issues its one query and no other (no retry),
    raises exactly one alert with a generic message, never writes the
    stored profile and ends with [loading = false]: the stored profile is
    what it was before the fetch.  After the first fetch of a mounted
    screen that is the "no data" state and the points display is "0"; a
    profile stored by an earlier fetch stays, with its points. *)
Theorem failed_fetch_keeps_stored_profile
        (toLocaleString : Z -> string) (u : User) (res : Settled) (st : ScreenState) :
  fetchFailed res = true ->
  let es := HomeScreen.fetchUserProfile (Some u) res in
  let st' := runEffects es st in
  filter isQuery es = [SelectSingle "user_profiles" "*" "id" (user_id u)]
  /\ (filter isAlert es = [AlertAlert "Error" "Failed to load profile data"]
      \/ filter isAlert es = [AlertAlert "Error" "Something went wrong"])
  /\ filter isSetUserProfile es = []
  /\ st' = mkState (userProfile st) false (refreshing st)
  /\ HomeScreen.pointsValue (HomeScreen.render toLocaleString st')
     = match userProfile st with
       | Some p => option_map toLocaleString (points p)
       | None => Some "0"
       end
  /\ runEffects es initialState = mkState None false false
  /\ HomeScreen.pointsValue
       (HomeScreen.render toLocaleString (runEffects es initialState)) = Some "0"
  /\ ProfileScreen.fetchUserProfile (Some u) res = es
  /\ ProfileScreen.pointsText
       (ProfileScreen.render toLocaleString (runEffects es initialState))
     = Some "0 Points".
Proof.
  intros Hfail es st'.
  destruct (failed_fetch_effects u res Hfail) as (label & payload & message & Hes & Hmsg).
  subst st' es.
  change (ProfileScreen.fetchUserProfile (Some u) res)
    with (HomeScreen.fetchUserProfile (Some u) res).
  rewrite Hes. cbn.
  repeat split; try reflexivity.
  - destruct Hmsg as [-> | ->]; [now left | now right].
  - destruct (userProfile st) as [p |]; [destruct (points p) |]; reflexivity.
Qed.

Lemma failed_fetch_keeps_stored_profile_witness :
  fetchFailed (Fulfilled (mkResponse None (Some "PGRST116"))) = true
  /\ runEffects
       (HomeScreen.fetchUserProfile (Some (mkUser 1 "u1"))
          (Fulfilled (mkResponse None (Some "PGRST116"))))
       initialState
     = mkState None false false.
Proof.
  split; [reflexivity |].
  apply (failed_fetch_keeps_stored_profile
           (fun _ => "1,000") (mkUser 1 "u1")
           (Fulfilled (mkResponse None (Some "PGRST116"))) initialState).
  reflexivity.
Defined.

(** C6 as stated fails on a refresh: with a profile of 1000 points on
    display, a fetch that throws leaves that profile stored and the points
    card showing it, neither "no data" nor "0". *)
Lemma failed_refresh_keeps_loaded_profile :
  let shown := mkUserProfile "u1" "a@x.com" (Some "") (Some 1000)
                             (Some "2024-01-01T00:00:00Z") in
  let st := mkState (Some shown) false false in
  let res := Rejected "Network request failed" in
  let st' := runEffects (HomeScreen.fetchUserProfile (Some (mkUser 1 "u1")) res) st in
  fetchFailed res = true
  /\ userProfile st' = Some shown
  /\ HomeScreen.pointsValue (HomeScreen.render (fun _ => "1,000") st') = Some "1,000"
  /\ ~ (userProfile st' = None
        /\ HomeScreen.pointsValue (HomeScreen.render (fun _ => "1,000") st')
           = Some "0").
Proof.
  cbn. repeat split; try reflexivity.
  intros [H _]. discriminate H.
Qed.

(** C7. A pull-to-refresh never clears the profile on display while the
    fetch is in flight: the handler's effects split into a part during
    which every state still holds the old profile, and a rest that is
    empty unless the fetch succeeded, in which case it starts by storing
    the fetched row.  The same holds on both screens. *)
Theorem onRefresh_keeps_profile_until_result
        (user : option User) (res : Settled) (st : ScreenState) :
  ProfileScreen.onRefresh user res = HomeScreen.onRefresh user res
  /\ exists before after : list Effect,
      HomeScreen.onRefresh user res = (before ++ after)%list
      /\ Forall (fun s => userProfile s = userProfile st) (statesDuring before st)
      /\ (after = []
          \/ exists u r,
              user = Some u /\ res = Fulfilled r /\ error r = None
              /\ before = [SetRefreshing true;
                           SelectSingle "user_profiles" "*" "id" (user_id u)]
              /\ after = [SetUserProfile (data r); SetLoading false;
                          SetRefreshing false]).
Proof.
  split; [reflexivity |].
  destruct user as [u |].
  - destruct res as [r | reason].
    + destruct (error r) as [e |] eqn:He.
      * exists (HomeScreen.onRefresh (Some u) (Fulfilled r)), [].
        rewrite app_nil_r. split; [reflexivity |]. split; [| now left].
        unfold HomeScreen.onRefresh, HomeScreen.fetchUserProfile.
        rewrite He. cbn. repeat constructor.
      * exists [SetRefreshing true;
                SelectSingle "user_profiles" "*" "id" (user_id u)],
               [SetUserProfile (data r); SetLoading false; SetRefreshing false].
        split.
        { unfold HomeScreen.onRefresh, HomeScreen.fetchUserProfile.
          rewrite He. reflexivity. }
        split; [cbn; repeat constructor |].
        right. exists u, r. repeat split; assumption.
    + exists (HomeScreen.onRefresh (Some u) (Rejected reason)), [].
      rewrite app_nil_r. split; [reflexivity |]. split; [| now left].
      cbn. repeat constructor.
  - exists (HomeScreen.onRefresh None res), [].
    rewrite app_nil_r. split; [reflexivity |]. split; [| now left].
    cbn. repeat constructor.
Qed.

(** C10. With no current user, [fetchUserProfile] does nothing on either
    screen: no query, no alert, no state change.  However often it is
    invoked on a freshly mounted screen, the stored profile is still null
    and [loading] still true, so both screens render "Loading...". *)
Theorem fetchUserProfile_without_user
        (toLocaleString : Z -> string) (res : Settled) (st : ScreenState)
        (outcomes : list Settled) :
  HomeScreen.fetchUserProfile None res = []
  /\ ProfileScreen.fetchUserProfile None res = []
  /\ runEffects (HomeScreen.fetchUserProfile None res) st = st
  /\ runEffects (ProfileScreen.fetchUserProfile None res) st = st
  /\ runEffects (flat_map (HomeScreen.fetchUserProfile None) outcomes) initialState
     = initialState
  /\ runEffects (flat_map (ProfileScreen.fetchUserProfile None) outcomes) initialState
     = initialState
  /\ userProfile initialState = None
  /\ loading initialState = true
  /\ HomeScreen.render toLocaleString initialState
     = HomeScreen.LoadingView "Loading..."
  /\ ProfileScreen.render toLocaleString initialState
     = ProfileScreen.LoadingView "Loading...".
Proof.
  assert (Hnone : forall f : Settled -> list Effect,
             (forall r, f r = []) -> flat_map f outcomes = []).
  { intros f Hf. induction outcomes as [| o os IH]; cbn; [reflexivity |].
    now rewrite Hf, IH. }
  repeat split; try reflexivity.
  - now rewrite Hnone.
  - now rewrite Hnone.
Qed.

(** ** The splash router *)

Lemma sameDeps_refl (a : IndexScreen.Auth) : IndexScreen.sameDeps a a = true.
Proof.
  unfold IndexScreen.sameDeps, IndexScreen.sameUser.
  destruct (IndexScreen.user a) as [u |]; cbn.
  - now rewrite Nat.eqb_refl, Bool.eqb_reflx.
  - now rewrite Bool.eqb_reflx.
Qed.

(** Re-rendering with unchanged dependencies does not run the effect. *)
Lemma navigation_unchanged (a : IndexScreen.Auth) (n : nat) :
  IndexScreen.navigation (Some a) (repeat a n) = [].
Proof.
  induction n as [| n IH]; cbn; [reflexivity |].
  now rewrite sameDeps_refl, IH.
Qed.

(** While the auth state is unresolved the effect makes no router call. *)
Lemma effect_while_loading (a : IndexScreen.Auth) :
  IndexScreen.authLoading a = true -> IndexScreen.effect a = [].
Proof. unfold IndexScreen.effect. now intros ->. Qed.

Lemma effect_cases (a : IndexScreen.Auth) :
  IndexScreen.effect a
  = if IndexScreen.authLoading a then []
    else [IndexScreen.Replace (match IndexScreen.user a with
                               | Some _ => "/(tabs)"
                               | None => "/(auth)/sign-in"
                               end)].
Proof.
  unfold IndexScreen.effect.
  destruct (IndexScreen.authLoading a); [reflexivity |].
  now destruct (IndexScreen.user a).
Qed.

Lemma navigation_resolves (prev : option IndexScreen.Auth)
      (waiting : list IndexScreen.Auth) (u : option User) (n : nat) :
  match prev with
  | Some p => IndexScreen.authLoading p = true
  | None => True
  end ->
  Forall (fun a => IndexScreen.authLoading a = true) waiting ->
  IndexScreen.navigation prev (waiting ++ repeat (IndexScreen.mkAuth u false) (S n))
  = IndexScreen.effect (IndexScreen.mkAuth u false).
Proof.
  intros Hprev Hwait. revert prev Hprev.
  induction Hwait as [| a waiting Ha _ IH]; intros prev Hprev.
  - cbn [app repeat IndexScreen.navigation].
    rewrite navigation_unchanged, app_nil_r.
    destruct prev as [p |]; [| reflexivity].
    unfold IndexScreen.sameDeps. cbn [IndexScreen.authLoading].
    rewrite Hprev. cbn. now rewrite andb_false_r.
  - cbn [app IndexScreen.navigation].
    rewrite (IH (Some a) Ha), (effect_while_loading a Ha).
    destruct prev as [p |]; [destruct (IndexScreen.sameDeps p a) |]; reflexivity.
Qed.

Lemma last_cons {A : Type} (l : list A) :
  forall x d : A, last (x :: l) d = last l x.
Proof.
  induction l as [| y l IH]; intros x d; [reflexivity |].
  change (last (x :: y :: l) d) with (last (y :: l) d).
  now rewrite (IH y d), (IH y x).
Qed.

Lemma last_after_repeat {A : Type} (l : list A) (x d : A) (n : nat) :
  last (l ++ repeat x (S n)) d = x.
Proof.
  change (repeat x (S n)) with (x :: repeat x n).
  rewrite repeat_cons, app_assoc. apply last_last.
Qed.

(** The calls of a run of renders are those of its renders, each judged
    against the render before it. *)
Lemma navigation_snoc (before : list IndexScreen.Auth) :
  forall (prev : option IndexScreen.Auth) (a : IndexScreen.Auth),
    IndexScreen.navigation prev (before ++ [a])
    = (IndexScreen.navigation prev before
         ++ IndexScreen.navigation (last (map Some before) prev) [a])%list.
Proof.
  induction before as [| b before IH]; intros prev a.
  - reflexivity.
  - cbn [app map IndexScreen.navigation].
    rewrite IH, last_cons, <- app_assoc. reflexivity.
Qed.

Lemma navigation_while_loading (waiting : list IndexScreen.Auth) :
  Forall (fun w => IndexScreen.authLoading w = true) waiting ->
  forall prev, IndexScreen.navigation prev waiting = [].
Proof.
  induction 1 as [| w waiting Hw _ IH]; intros prev; [reflexivity |].
  cbn [IndexScreen.navigation].
  rewrite IH, (effect_while_loading w Hw), app_nil_r.
  destruct prev as [p |]; [destruct (IndexScreen.sameDeps p w) |]; reflexivity.
Qed.

(** C8, as the code has it. The splash screen renders the loading
    indicator at every render, so for as long as the auth state is
    unresolved, and makes no router call while it is unresolved.  At a
    render with a resolved state it makes exactly one call if the
    dependencies [[user, loading]] differ from the previous render's, or
    if it is the first render, and none otherwise: [replace] to the tabs
    when a user is present, to sign-in when not.  So it routes once when
    the state resolves, not again on re-renders with the same user object,
    and once more each time the user object changes while the state stays
    resolved. *)
Theorem IndexScreen_routes_once_per_change
        (prev : option IndexScreen.Auth) (before : list IndexScreen.Auth)
        (a : IndexScreen.Auth)
        (waiting : list IndexScreen.Auth) (u : option User) (n : nat) :
  Forall (fun w => IndexScreen.authLoading w = true) waiting ->
  let route x := IndexScreen.Replace (match IndexScreen.user x with
                                      | Some _ => "/(tabs)"
                                      | None => "/(auth)/sign-in"
                                      end) in
  IndexScreen.render a = IndexScreen.ActivityIndicator "large" "#FFFFFF"
  /\ IndexScreen.navigation prev waiting = []
  /\ IndexScreen.navigation prev (before ++ [a])
     = (IndexScreen.navigation prev before
          ++ if IndexScreen.authLoading a then []
             else match last (map Some before) prev with
                  | Some p => if IndexScreen.sameDeps p a then [] else [route a]
                  | None => [route a]
                  end)%list
  /\ IndexScreen.navigation None
       (waiting ++ repeat (IndexScreen.mkAuth u false) (S n))
     = [route (IndexScreen.mkAuth u false)]
  /\ IndexScreen.navigation None
       (waiting ++ repeat (IndexScreen.mkAuth u false) (S n) ++ [a])
     = (route (IndexScreen.mkAuth u false)
          :: if IndexScreen.authLoading a then []
             else if IndexScreen.sameDeps (IndexScreen.mkAuth u false) a then []
                  else [route a])%list.
Proof.
  intros Hwait route.
  assert (Hone : IndexScreen.navigation None
                   (waiting ++ repeat (IndexScreen.mkAuth u false) (S n))
                 = [route (IndexScreen.mkAuth u false)]).
  { rewrite (navigation_resolves None waiting u n I Hwait), effect_cases.
    reflexivity. }
  assert (Hsnoc : forall p l,
             IndexScreen.navigation p (l ++ [a])
             = (IndexScreen.navigation p l
                  ++ if IndexScreen.authLoading a then []
                     else match last (map Some l) p with
                          | Some q => if IndexScreen.sameDeps q a then []
                                      else [route a]
                          | None => [route a]
                          end)%list).
  { intros p l. rewrite navigation_snoc. f_equal.
    cbn [IndexScreen.navigation]. rewrite app_nil_r, effect_cases.
    destruct (last (map Some l) p) as [q |];
      [destruct (IndexScreen.sameDeps q a) |];
      destruct (IndexScreen.authLoading a); reflexivity. }
  split; [reflexivity |].
  split; [now apply navigation_while_loading |].
  split; [apply Hsnoc |].
  split; [exact Hone |].
  rewrite app_assoc, Hsnoc, Hone.
  rewrite map_app, map_repeat, last_after_repeat. reflexivity.
Qed.

Lemma IndexScreen_routes_once_per_change_witness :
  Forall (fun w => IndexScreen.authLoading w = true)
         [IndexScreen.mkAuth None true; IndexScreen.mkAuth None true]
  /\ IndexScreen.navigation None
       ([IndexScreen.mkAuth None true; IndexScreen.mkAuth None true]
          ++ repeat (IndexScreen.mkAuth (Some (mkUser 1 "u1")) false) 3)%list
     = [IndexScreen.Replace "/(tabs)"].
Proof.
  assert (H : Forall (fun w => IndexScreen.authLoading w = true)
                     [IndexScreen.mkAuth None true; IndexScreen.mkAuth None true])
    by (repeat constructor).
  split; [exact H |].
  pose proof (IndexScreen_routes_once_per_change
                None [] (IndexScreen.mkAuth None true)
                [IndexScreen.mkAuth None true; IndexScreen.mkAuth None true]
                (Some (mkUser 1 "u1")) 2 H) as K.
  cbv zeta in K. destruct K as (_ & _ & _ & K & _). exact K.
Defined.

(** C8 as stated fails when the user object changes while the state stays
    resolved: the state resolves once, and the screen routes twice. *)
Lemma user_object_change_routes_again :
  let renders := [IndexScreen.mkAuth None true;
                  IndexScreen.mkAuth (Some (mkUser 1 "u1")) false;
                  IndexScreen.mkAuth (Some (mkUser 2 "u1")) false] in
  map IndexScreen.authLoading renders = [true; false; false]
  /\ IndexScreen.navigation None renders
     = [IndexScreen.Replace "/(tabs)"; IndexScreen.Replace "/(tabs)"]
  /\ ~ (List.length (IndexScreen.navigation None renders) = 1%nat).
Proof.
  cbn. repeat split. discriminate.
Qed.

(** ** Provisioning *)

Lemma with_tables_same (s : Db.store) : Db.with_tables (Db.tables s) s = s.
Proof. now destruct s. Qed.

Lemma enable_rls_idem (name : string) (t : Db.table) :
  Db.enable_rls name (Db.enable_rls name t) = Db.enable_rls name t.
Proof.
  unfold Db.enable_rls.
  destruct (String.eqb (Db.relname t) name) eqn:E; cbn; now rewrite E.
Qed.

Lemma enable_rls_relname (name : string) (t : Db.table) :
  Db.relname (Db.enable_rls name t) = Db.relname t.
Proof.
  unfold Db.enable_rls. now destruct (String.eqb (Db.relname t) name).
Qed.

Lemma existsb_relname_enable_rls (name n : string) (ts : list Db.table) :
  existsb (fun t => String.eqb (Db.relname t) n) (map (Db.enable_rls name) ts)
  = existsb (fun t => String.eqb (Db.relname t) n) ts.
Proof.
  induction ts as [| t ts IH]; cbn; [reflexivity |].
  now rewrite enable_rls_relname, IH.
Qed.

(** The catalog the migration leaves in a store that had only the
    identity table. *)
Lemma migration_on_fresh_store :
  Db.run_script Db.migration Db.fresh_store
  = (Db.mkStore
       [Db.mkTable "auth.users" false; Db.mkTable "user_profiles" true]
       [Db.users_can_read_own_profile; Db.users_can_update_own_profile;
        Db.users_can_insert_own_profile]
       [("handle_new_user", Db.handle_new_user_body);
        ("update_updated_at_column", Db.update_updated_at_column_body)]
       [Db.on_auth_user_created; Db.update_user_profiles_updated_at]
       [] [],
     None).
Proof. vm_compute. reflexivity. Qed.

Lemma provisioned_catalog (s : Db.store) :
  Db.provisioned s ->
  Db.tables s = [Db.mkTable "auth.users" false; Db.mkTable "user_profiles" true]
  /\ Db.policies s = [Db.users_can_read_own_profile;
                      Db.users_can_update_own_profile;
                      Db.users_can_insert_own_profile]
  /\ Db.functions s = [("handle_new_user", Db.handle_new_user_body);
                       ("update_updated_at_column", Db.update_updated_at_column_body)]
  /\ Db.triggers s = [Db.on_auth_user_created; Db.update_user_profiles_updated_at].
Proof.
  unfold Db.provisioned. rewrite migration_on_fresh_store. cbn [fst].
  cbn [Db.tables Db.policies Db.functions Db.triggers]. trivial.
Qed.

(** Whatever store the migration has run on to the end, running it again
    stops at the first [CREATE POLICY] and changes nothing. *)
Lemma migration_rerun_stops_at_policy (s s' : Db.store) :
  Db.run_script Db.migration s = (s', None) ->
  Db.run_script Db.migration s'
  = (s', Some (Db.duplicate_object "policy" "Users can read own profile"
                                   "user_profiles")).
Proof.
  unfold Db.migration. cbn [Db.run_script].
  destruct (Db.exec _ s) as [e | s1] eqn:E1; [discriminate |].
  destruct (Db.exec _ s1) as [e | s2] eqn:E2; [discriminate |].
  destruct (Db.exec _ s2) as [e | s3] eqn:E3; [discriminate |].
  destruct (Db.exec _ s3) as [e | s4] eqn:E4; [discriminate |].
  destruct (Db.exec _ s4) as [e | s5] eqn:E5; [discriminate |].
  destruct (Db.exec _ s5) as [e | s6] eqn:E6; [discriminate |].
  destruct (Db.exec _ s6) as [e | s7] eqn:E7; [discriminate |].
  destruct (Db.exec _ s7) as [e | s8] eqn:E8; [discriminate |].
  destruct (Db.exec _ s8) as [e | s9] eqn:E9; [discriminate |].
  intros H. injection H as <-.
  (* the first run: what each statement left behind *)
  cbn [Db.exec] in E2.
  destruct (Db.has_table "user_profiles" s1) eqn:T1; [| discriminate].
  injection E2 as <-.
  cbn [Db.exec Db.poltable Db.polname Db.users_can_read_own_profile] in E3.
  destruct (negb (Db.has_table "user_profiles" _)); [discriminate |].
  destruct (Db.has_policy _ _ _); [discriminate |]. injection E3 as <-.
  cbn [Db.exec Db.poltable Db.polname Db.users_can_update_own_profile] in E4.
  destruct (negb (Db.has_table "user_profiles" _)); [discriminate |].
  destruct (Db.has_policy _ _ _); [discriminate |]. injection E4 as <-.
  cbn [Db.exec Db.poltable Db.polname Db.users_can_insert_own_profile] in E5.
  destruct (negb (Db.has_table "user_profiles" _)); [discriminate |].
  destruct (Db.has_policy _ _ _); [discriminate |]. injection E5 as <-.
  assert (F6 : Db.tables s6 = map (Db.enable_rls "user_profiles") (Db.tables s1)
               /\ Db.policies s6
                  = (((Db.policies s1 ++ [Db.users_can_read_own_profile])
                        ++ [Db.users_can_update_own_profile])
                       ++ [Db.users_can_insert_own_profile])%list).
  { cbn [Db.exec] in E6.
    destruct (Db.lookup_function _ _); injection E6 as <-; split; reflexivity. }
  assert (F7 : Db.tables s7 = Db.tables s6 /\ Db.policies s7 = Db.policies s6).
  { cbn [Db.exec Db.tgtable Db.tgname Db.tgfunction Db.on_auth_user_created] in E7.
    destruct (negb (Db.pg_trigger_named _ _)); [| now injection E7 as <-].
    destruct (negb (Db.has_table _ _)); [discriminate |].
    destruct (Db.lookup_function _ _); [| discriminate].
    destruct (Db.has_trigger _ _ _); [discriminate |]. now injection E7 as <-. }
  assert (F8 : Db.tables s8 = Db.tables s7 /\ Db.policies s8 = Db.policies s7).
  { cbn [Db.exec] in E8.
    destruct (Db.lookup_function _ _); now injection E8 as <-. }
  assert (F9 : Db.tables s9 = Db.tables s8 /\ Db.policies s9 = Db.policies s8).
  { cbn [Db.exec Db.tgtable Db.tgname Db.tgfunction
         Db.update_user_profiles_updated_at] in E9.
    destruct (negb (Db.pg_trigger_named _ _)); [| now injection E9 as <-].
    destruct (negb (Db.has_table _ _)); [discriminate |].
    destruct (Db.lookup_function _ _); [| discriminate].
    destruct (Db.has_trigger _ _ _); [discriminate |]. now injection E9 as <-. }
  destruct F6 as [T6 P6], F7 as [T7 P7], F8 as [T8 P8], F9 as [T9 P9].
  assert (T : Db.tables s9 = map (Db.enable_rls "user_profiles") (Db.tables s1))
    by congruence.
  assert (P : Db.policies s9
              = (((Db.policies s1 ++ [Db.users_can_read_own_profile])
                    ++ [Db.users_can_update_own_profile])
                   ++ [Db.users_can_insert_own_profile])%list) by congruence.
  assert (HT : Db.has_table "user_profiles" s9 = true).
  { unfold Db.has_table in *. now rewrite T, existsb_relname_enable_rls. }
  assert (Hsame : Db.with_tables (map (Db.enable_rls "user_profiles") (Db.tables s9)) s9
                  = s9).
  { rewrite T at 1. rewrite map_map.
    rewrite (map_ext _ _ (enable_rls_idem "user_profiles")).
    rewrite <- T. apply with_tables_same. }
  assert (HP : Db.has_policy "Users can read own profile" "user_profiles" s9 = true).
  { unfold Db.has_policy. rewrite P, !existsb_app. cbn.
    now rewrite orb_true_r. }
  (* the second run *)
  assert (R1 : Db.exec (Db.CREATE_TABLE true "user_profiles" ["auth.users"]) s9
               = inr s9).
  { cbn [Db.exec]. now rewrite HT. }
  assert (R2 : Db.exec (Db.ALTER_TABLE_ENABLE_ROW_LEVEL_SECURITY "user_profiles") s9
               = inr s9).
  { cbn [Db.exec]. now rewrite HT, Hsame. }
  assert (R3 : Db.exec (Db.CREATE_POLICY Db.users_can_read_own_profile) s9
               = inl (Db.duplicate_object "policy" "Users can read own profile"
                                          "user_profiles")).
  { cbn [Db.exec Db.poltable Db.polname Db.users_can_read_own_profile].
    now rewrite HT, HP. }
  now rewrite R1, R2, R3.
Qed.

(** C2. The script is not idempotent as run: on the store left by a first,
    successful run, the second run passes [CREATE TABLE IF NOT EXISTS] and
    [ALTER TABLE], then fails at the first [CREATE POLICY] with
    "policy already exists" and stops.  Nothing is duplicated: the store is
    the one the first run left, with one table, one of each policy and one
    of each trigger. *)
Theorem migration_second_run_fails :
  let first := Db.run_script Db.migration Db.fresh_store in
  let second := Db.run_script Db.migration (fst first) in
  snd first = None
  /\ snd second = Some (Db.duplicate_object "policy" "Users can read own profile"
                                            "user_profiles")
  /\ fst second = fst first
  /\ Db.count_tables "user_profiles" (fst second) = 1%nat
  /\ Db.count_policies "Users can read own profile" "user_profiles" (fst second) = 1%nat
  /\ Db.count_policies "Users can update own profile" "user_profiles" (fst second) = 1%nat
  /\ Db.count_policies "Users can insert own profile" "user_profiles" (fst second) = 1%nat
  /\ List.length (Db.policies (fst second)) = 3%nat
  /\ Db.count_triggers "on_auth_user_created" (fst second) = 1%nat
  /\ Db.count_triggers "update_user_profiles_updated_at" (fst second) = 1%nat.
Proof.
  cbv zeta.
  rewrite (migration_rerun_stops_at_policy Db.fresh_store
             (fst (Db.run_script Db.migration Db.fresh_store)))
    by (rewrite migration_on_fresh_store; reflexivity).
  rewrite migration_on_fresh_store.
  repeat split; vm_compute; reflexivity.
Qed.

(** ** Rows created at signup *)

Lemma existsb_false_filter_nil {A : Type} (f : A -> bool) (l : list A) :
  existsb f l = false -> filter f l = [].
Proof.
  induction l as [| a l IH]; cbn; [reflexivity |].
  destruct (f a); cbn; [discriminate | exact IH].
Qed.

(** What a successful run of [handle_new_user] has done. *)
Lemma handle_new_user_inserts (jsonb_out : Db.jsonb -> string)
      (now : Db.timestamptz) (NEW : Db.auth_user) (s s' : Db.store) :
  Db.handle_new_user jsonb_out now NEW s = inr s' ->
  let row := Db.mkProfile
               (Some (Db.au_id NEW)) (Db.au_email NEW)
               (Db.COALESCE
                  (Db.json_field_text jsonb_out (Db.raw_user_meta_data NEW) "full_name")
                  "")
               (Some 1000) (Some now) (Some now) in
  s' = Db.with_user_profiles (Db.user_profiles s ++ [row]) s
  /\ existsb (fun o => Db.sql_eqb (Db.id o) (Some (Db.au_id NEW))) (Db.user_profiles s)
     = false
  /\ (exists e, Db.au_email NEW = Some e).
Proof.
  unfold Db.handle_new_user, Db.insert_user_profiles.
  destruct (negb (Db.has_table "user_profiles" s)); [discriminate |].
  unfold Db.check_constraints, Db.new_tuple. cbn.
  destruct (Db.au_email NEW) as [e |]; [| discriminate].
  destruct (existsb (fun o => Db.sql_eqb (Db.id o) _) (Db.user_profiles s));
    [discriminate |].
  destruct (existsb (fun o => Db.sql_eqb (Db.email o) _) (Db.user_profiles s));
    [discriminate |].
  destruct (negb _); [discriminate |].
  intros H. injection H as <-.
  repeat split. now exists e.
Qed.

(** C3, as the code has it. The [points] column defaults to 0: a row
    inserted without a points value has [points = 0]; a row inserted by the
    signup trigger has [points = 1000] because [handle_new_user] writes
    that value itself. *)
Theorem points_default_0_signup_grant_1000
        (jsonb_out : Db.jsonb -> string) (now : Db.timestamptz)
        (i e f : Db.column_value string) (c u : Db.column_value Db.timestamptz)
        (NEW : Db.auth_user) (s : Db.store) :
  Db.points (Db.new_tuple now (Db.mkInsert i e f Db.DEFAULT c u)) = Some 0
  /\ match Db.insert_user_profiles now (Db.mkInsert i e f Db.DEFAULT c u) s with
     | inr s' =>
         exists row, Db.user_profiles s' = (Db.user_profiles s ++ [row])%list
                     /\ Db.points row = Some 0
     | inl _ => True
     end
  /\ match Db.handle_new_user jsonb_out now NEW s with
     | inr s' =>
         exists row, Db.user_profiles s' = (Db.user_profiles s ++ [row])%list
                     /\ Db.points row = Some 1000
     | inl _ => True
     end.
Proof.
  split; [reflexivity |]. split.
  - unfold Db.insert_user_profiles.
    destruct (negb (Db.has_table "user_profiles" s)); [exact I |].
    destruct (Db.check_constraints _ _ _); [exact I |].
    eexists. split; reflexivity.
  - destruct (Db.handle_new_user jsonb_out now NEW s) as [err | s'] eqn:H; [exact I |].
    destruct (handle_new_user_inserts _ _ _ _ _ H) as (-> & _ & _).
    eexists. split; reflexivity.
Qed.

(** C3 as stated fails: in a provisioned store holding identity [u1], a
    row inserted without a points value gets [points = 0], not 1000. *)
Lemma insert_without_points_gets_0 :
  let s := Db.with_auth_users [Db.mkAuthUser "u1" (Some "a@x.com") None]
                              (fst (Db.run_script Db.migration Db.fresh_store)) in
  let v := Db.mkInsert (Db.VALUE (Some "u1")) (Db.VALUE (Some "a@x.com"))
                       Db.DEFAULT Db.DEFAULT Db.DEFAULT Db.DEFAULT in
  Db.insert_user_profiles 100 v s
  = inr (Db.with_user_profiles
           [Db.mkProfile (Some "u1") (Some "a@x.com") None (Some 0) (Some 100) (Some 100)]
           s)
  /\ ~ (forall s', Db.insert_user_profiles 100 v s = inr s' ->
                   Forall (fun r => Db.points r = Some 1000) (Db.user_profiles s')).
Proof.
  cbv zeta. split; [vm_compute; reflexivity |].
  intros H. specialize (H _ eq_refl).
  vm_compute in H. inversion H as [| r l Hr _]. discriminate Hr.
Qed.

(** In a provisioned store a new identity fires exactly [handle_new_user]. *)
Lemma insert_auth_user_provisioned (jsonb_out : Db.jsonb -> string)
      (now : Db.timestamptz) (NEW : Db.auth_user) (s : Db.store) :
  Db.provisioned s ->
  Db.insert_auth_user jsonb_out now NEW s
  = if existsb (fun u => String.eqb (Db.au_id u) (Db.au_id NEW)) (Db.auth_users s)
    then inl (Db.unique_violation "users_pkey")
    else Db.handle_new_user jsonb_out now NEW
           (Db.with_auth_users (Db.auth_users s ++ [NEW]) s).
Proof.
  intros Hp. destruct (provisioned_catalog s Hp) as (Ht & Hpol & Hf & Htr).
  unfold Db.insert_auth_user.
  destruct (existsb _ (Db.auth_users s)); [reflexivity |].
  unfold Db.triggers_on. rewrite Htr.
  cbn [filter Db.on_auth_user_created Db.update_user_profiles_updated_at
       Db.tgtable Db.tgtiming Db.tgevent Db.timing_eqb Db.command_eqb andb].
  change (String.eqb "auth.users" "auth.users") with true.
  change (String.eqb "user_profiles" "auth.users") with false.
  cbn [andb Db.fire_all_after_insert].
  unfold Db.fire_after_insert, Db.lookup_function.
  cbn [Db.functions Db.with_auth_users Db.tgfunction]. rewrite Hf.
  change (find _ _) with (Some ("handle_new_user", Db.handle_new_user_body)).
  cbn [option_map snd].
  now destruct (Db.handle_new_user _ _ _ _).
Qed.

Lemma has_user_profiles_provisioned (s : Db.store) :
  Db.provisioned s -> Db.has_table "user_profiles" s = true.
Proof.
  intros Hp. destruct (provisioned_catalog s Hp) as (Ht & _).
  unfold Db.has_table. now rewrite Ht.
Qed.

(** C4. In a provisioned store, every identity that is inserted has had
    exactly one [user_profiles] row inserted by the signup trigger: its id
    is the identity's id, its email the identity's email, its full_name the
    [full_name] field of the signup metadata or the empty string when there
    is none, its points 1000; no other row of the table carries that id.
    The insertion goes through whenever the id is new, the identity has an
    email, and no profile holds that id or email. *)
Theorem signup_trigger_creates_profile
        (jsonb_out : Db.jsonb -> string) (now : Db.timestamptz)
        (NEW : Db.auth_user) (s : Db.store) :
  Db.provisioned s ->
  let full_name_of m :=
      Db.COALESCE (Db.json_field_text jsonb_out m "full_name") "" in
  let row := Db.mkProfile (Some (Db.au_id NEW)) (Db.au_email NEW)
                          (full_name_of (Db.raw_user_meta_data NEW))
                          (Some 1000) (Some now) (Some now) in
  (forall s', Db.insert_auth_user jsonb_out now NEW s = inr s' ->
      Db.auth_users s' = (Db.auth_users s ++ [NEW])%list
      /\ Db.user_profiles s' = (Db.user_profiles s ++ [row])%list
      /\ filter (fun r => Db.sql_eqb (Db.id r) (Some (Db.au_id NEW)))
                (Db.user_profiles s') = [row]
      /\ (exists e, Db.au_email NEW = Some e /\ Db.email row = Some e))
  /\ (forall e,
         existsb (fun u => String.eqb (Db.au_id u) (Db.au_id NEW)) (Db.auth_users s)
         = false ->
         Db.au_email NEW = Some e ->
         existsb (fun o => Db.sql_eqb (Db.id o) (Some (Db.au_id NEW)))
                 (Db.user_profiles s) = false ->
         existsb (fun o => Db.sql_eqb (Db.email o) (Some e)) (Db.user_profiles s)
         = false ->
         Db.insert_auth_user jsonb_out now NEW s
         = inr (Db.with_user_profiles (Db.user_profiles s ++ [row])
                  (Db.with_auth_users (Db.auth_users s ++ [NEW]) s)))
  /\ full_name_of None = Some ""
  /\ full_name_of (Some (Db.JObject [])) = Some ""
  /\ (forall fields,
         find (fun f => String.eqb (fst f) "full_name") fields = None ->
         full_name_of (Some (Db.JObject fields)) = Some "")
  /\ (forall t fields,
         find (fun f => String.eqb (fst f) "full_name") fields
         = Some ("full_name", Db.JString t) ->
         full_name_of (Some (Db.JObject fields)) = Some t).
Proof.
  intros Hp full_name_of row.
  rewrite (insert_auth_user_provisioned jsonb_out now NEW s Hp).
  split; [| split].
  - intros s' H.
    destruct (existsb _ (Db.auth_users s)); [discriminate |].
    destruct (handle_new_user_inserts _ _ _ _ _ H) as (-> & Hid & e & He).
    cbn [Db.auth_users Db.user_profiles Db.with_user_profiles Db.with_auth_users] in *.
    repeat split.
    + rewrite filter_app, (existsb_false_filter_nil _ _ Hid).
      cbn. now rewrite String.eqb_refl.
    + exists e. subst row. cbn. now split.
  - intros e Hfresh He Hid Hemail. rewrite Hfresh.
    unfold Db.handle_new_user, Db.insert_user_profiles.
    replace (Db.has_table "user_profiles" _) with true
      by (symmetry; apply (has_user_profiles_provisioned s Hp)).
    unfold Db.check_constraints, Db.new_tuple.
    cbn [negb Db.or_default Db.id Db.email Db.ins_id Db.ins_email Db.ins_full_name
         Db.ins_points Db.ins_created_at Db.ins_updated_at
         Db.user_profiles Db.auth_users Db.with_auth_users].
    rewrite He, Hid, Hemail, existsb_app. cbn [existsb].
    rewrite String.eqb_refl, orb_true_r. cbn [negb orb].
    subst row full_name_of. now rewrite He.
  - subst full_name_of. cbn. repeat split.
    + intros fields Hf. now rewrite Hf.
    + intros t fields Hf. now rewrite Hf.
Qed.

(** The scenario of identity [u1], email [a@x.com], no display name. *)
Lemma signup_trigger_creates_profile_witness :
  Db.provisioned (fst (Db.run_script Db.migration Db.fresh_store))
  /\ Db.insert_auth_user (fun _ => "") 100 (Db.mkAuthUser "u1" (Some "a@x.com") None)
       (fst (Db.run_script Db.migration Db.fresh_store))
     = inr (Db.with_user_profiles
              ([] ++ [Db.mkProfile (Some "u1") (Some "a@x.com") (Some "")
                                   (Some 1000) (Some 100) (Some 100)])
              (Db.with_auth_users
                 ([] ++ [Db.mkAuthUser "u1" (Some "a@x.com") None])
                 (fst (Db.run_script Db.migration Db.fresh_store)))).
Proof.
  assert (Hp : Db.provisioned (fst (Db.run_script Db.migration Db.fresh_store)))
    by (repeat split; reflexivity).
  split; [exact Hp |].
  pose proof (signup_trigger_creates_profile
                (fun _ => "") 100 (Db.mkAuthUser "u1" (Some "a@x.com") None)
                (fst (Db.run_script Db.migration Db.fresh_store)) Hp) as H.
  cbv zeta in H. destruct H as (_ & H & _).
  apply (H "a@x.com"); reflexivity.
Defined.

(** ** The update trigger *)

Lemma before_update_provisioned (now : Db.timestamptz) (s : Db.store)
      (NEW : Db.user_profile) :
  Db.provisioned s ->
  Db.fire_all_before_update now s (Db.triggers_on "user_profiles" Db.BEFORE Db.UPDATE s) NEW
  = inr (Db.update_updated_at_column now NEW).
Proof.
  intros Hp. destruct (provisioned_catalog s Hp) as (Ht & Hpol & Hf & Htr).
  unfold Db.triggers_on. rewrite Htr.
  cbn [filter Db.on_auth_user_created Db.update_user_profiles_updated_at
       Db.tgtable Db.tgtiming Db.tgevent Db.timing_eqb Db.command_eqb andb].
  change (String.eqb "auth.users" "user_profiles") with false.
  change (String.eqb "user_profiles" "user_profiles") with true.
  cbn [andb Db.fire_all_before_update].
  unfold Db.fire_before_update, Db.lookup_function.
  cbn [Db.tgfunction]. rewrite Hf.
  change (find _ _)
    with (Some ("update_updated_at_column", Db.update_updated_at_column_body)).
  reflexivity.
Qed.

(** The rows an [UPDATE] leaves in a provisioned store, when it succeeds:
    each target row is what [SET] and then the trigger make of it, and
    passed the check; the other rows are as they were. *)
Lemma update_rows_result (now : Db.timestamptz) (s : Db.store)
      (u : Db.profile_update) (target check : Db.user_profile -> bool) :
  Db.provisioned s ->
  forall todo done rows,
    Db.update_rows now s u target check done todo = inr rows ->
    rows = (done ++ map (fun OLD => if target OLD
                                    then Db.update_updated_at_column now (Db.apply_set u OLD)
                                    else OLD) todo)%list
    /\ Forall (fun OLD => target OLD = true ->
                          check (Db.update_updated_at_column now (Db.apply_set u OLD))
                          = true) todo.
Proof.
  intros Hp. induction todo as [| OLD rest IH]; intros done rows H; cbn in H.
  - injection H as <-. split; [now rewrite app_nil_r | constructor].
  - destruct (target OLD) eqn:Ht.
    + rewrite (before_update_provisioned now s _ Hp) in H. revert H.
      destruct (check _) eqn:Hc; cbn [negb]; [| discriminate].
      destruct (Db.check_constraints _ _ _); [discriminate |].
      intros H. destruct (IH _ _ H) as [-> Hall]. split.
      * cbn [map]. rewrite Ht, <- app_assoc. reflexivity.
      * constructor; [intros _; exact Hc | exact Hall].
    + destruct (IH _ _ H) as [-> Hall]. split.
      * cbn [map]. rewrite Ht, <- app_assoc. reflexivity.
      * constructor; [intros Habs; congruence | exact Hall].
Qed.

(** C5, as the code has it. On every update of a [user_profiles] row the
    [BEFORE UPDATE] trigger replaces the row's [updated_at] by [now()], the
    time of the current transaction, and leaves [created_at] and every
    other column as the update wrote them ([created_at] as it was, when
    the update does not assign it).  The new [updated_at] is later than the
    old one exactly when [now()] is.  It equals the old one when that is
    [now()] itself, as it is for a row inserted with the default
    [updated_at], or already updated, in the same transaction. *)
Theorem update_trigger_sets_updated_at_to_now
        (now : Db.timestamptz) (u : Db.profile_update)
        (where_ : Db.user_profile -> bool) (s s' : Db.store) :
  Db.provisioned s ->
  Db.update_user_profiles now u where_ s = inr s' ->
  let written OLD := Db.update_updated_at_column now (Db.apply_set u OLD) in
  Db.user_profiles s'
  = map (fun OLD => if where_ OLD then written OLD else OLD) (Db.user_profiles s)
  /\ (forall OLD,
         Db.updated_at (written OLD) = Some now
         /\ Db.created_at (written OLD) = Db.created_at (Db.apply_set u OLD)
         /\ Db.id (written OLD) = Db.id (Db.apply_set u OLD)
         /\ Db.email (written OLD) = Db.email (Db.apply_set u OLD)
         /\ Db.full_name (written OLD) = Db.full_name (Db.apply_set u OLD)
         /\ Db.points (written OLD) = Db.points (Db.apply_set u OLD))
  /\ (forall OLD, Db.set_created_at u = None ->
                  Db.created_at (written OLD) = Db.created_at OLD)
  /\ (forall OLD t, Db.updated_at OLD = Some t ->
                    (t < now <-> exists t', Db.updated_at (written OLD) = Some t'
                                            /\ t < t'))
  /\ (forall OLD, Db.updated_at OLD = Some now ->
                  Db.updated_at (written OLD) = Db.updated_at OLD)
  /\ (forall i e f p c,
         Db.updated_at (Db.new_tuple now (Db.mkInsert i e f p c Db.DEFAULT)) = Some now
         /\ Db.updated_at (written (Db.new_tuple now (Db.mkInsert i e f p c Db.DEFAULT)))
            = Db.updated_at (Db.new_tuple now (Db.mkInsert i e f p c Db.DEFAULT)))
  /\ (forall u' OLD,
         Db.updated_at (written (Db.update_updated_at_column now (Db.apply_set u' OLD)))
         = Db.updated_at (Db.update_updated_at_column now (Db.apply_set u' OLD))).
Proof.
  intros Hp H written. unfold Db.update_user_profiles in H. revert H.
  destruct (negb (Db.has_table "user_profiles" s)); [discriminate |].
  destruct (negb (Db.update_fits u)); [discriminate |].
  destruct (Db.update_rows _ _ _ _ _ _ _) as [e | rows] eqn:Hrows; [discriminate |].
  intros H. injection H as <-.
  destruct (update_rows_result now s u where_ _ Hp _ _ _ Hrows) as [-> _].
  split; [reflexivity |]. split; [intros OLD; repeat split |].
  split; [| split; [| split; [| split]]].
  - intros OLD Hnone. cbn. now rewrite Hnone.
  - intros OLD t _. split.
    + intros Hlt. exists now. now split.
    + intros (t' & Ht' & Hlt). cbn in Ht'. now injection Ht' as <-.
  - intros OLD Hold. now rewrite Hold.
  - intros i e f p c. split; reflexivity.
  - intros u' OLD. reflexivity.
Qed.

Lemma update_trigger_sets_updated_at_to_now_witness :
  let s := Db.mkStore
             [Db.mkTable "auth.users" false; Db.mkTable "user_profiles" true]
             [Db.users_can_read_own_profile; Db.users_can_update_own_profile;
              Db.users_can_insert_own_profile]
             [("handle_new_user", Db.handle_new_user_body);
              ("update_updated_at_column", Db.update_updated_at_column_body)]
             [Db.on_auth_user_created; Db.update_user_profiles_updated_at]
             [Db.mkAuthUser "u1" (Some "a@x.com") None]
             [Db.mkProfile (Some "u1") (Some "a@x.com") (Some "") (Some 1000)
                           (Some 100) (Some 100)] in
  let u := Db.mkUpdate None None None (Some (Some 1500)) None None in
  Db.provisioned s
  /\ Db.update_user_profiles 250 u (fun _ => true) s
     = inr (Db.with_user_profiles
              [Db.mkProfile (Some "u1") (Some "a@x.com") (Some "") (Some 1500)
                            (Some 100) (Some 250)] s)
  /\ Db.user_profiles
       (Db.with_user_profiles
          [Db.mkProfile (Some "u1") (Some "a@x.com") (Some "") (Some 1500)
                        (Some 100) (Some 250)] s)
     = map (fun OLD => Db.update_updated_at_column 250 (Db.apply_set u OLD))
           (Db.user_profiles s).
Proof.
  intros s u.
  assert (Hp : Db.provisioned s) by (repeat split; reflexivity).
  assert (Hu : Db.update_user_profiles 250 u (fun _ => true) s
               = inr (Db.with_user_profiles
                        [Db.mkProfile (Some "u1") (Some "a@x.com") (Some "")
                                      (Some 1500) (Some 100) (Some 250)] s))
    by reflexivity.
  split; [exact Hp |]. split; [exact Hu |].
  exact (proj1 (update_trigger_sets_updated_at_to_now 250 u (fun _ => true) s _ Hp Hu)).
Defined.

(** C5 as stated fails when the row was already written in the current
    transaction: [now()] is then the row's [updated_at], and the update
    leaves [updated_at] equal to its prior value, not greater. *)
Lemma update_in_same_transaction_keeps_updated_at :
  let s := Db.mkStore
             [Db.mkTable "auth.users" false; Db.mkTable "user_profiles" true]
             [Db.users_can_read_own_profile; Db.users_can_update_own_profile;
              Db.users_can_insert_own_profile]
             [("handle_new_user", Db.handle_new_user_body);
              ("update_updated_at_column", Db.update_updated_at_column_body)]
             [Db.on_auth_user_created; Db.update_user_profiles_updated_at]
             [Db.mkAuthUser "u1" (Some "a@x.com") None]
             [Db.mkProfile (Some "u1") (Some "a@x.com") (Some "") (Some 1000)
                           (Some 100) (Some 100)] in
  let u := Db.mkUpdate None None None (Some (Some 1500)) None None in
  Db.provisioned s
  /\ Db.insert_auth_user (fun _ => "") 100 (Db.mkAuthUser "u1" (Some "a@x.com") None)
       (fst (Db.run_script Db.migration Db.fresh_store)) = inr s
  /\ Db.update_user_profiles 100 u (fun _ => true) s
     = inr (Db.with_user_profiles
              [Db.mkProfile (Some "u1") (Some "a@x.com") (Some "") (Some 1500)
                            (Some 100) (Some 100)] s)
  /\ ~ (forall s', Db.update_user_profiles 100 u (fun _ => true) s = inr s' ->
          exists t t', map Db.updated_at (Db.user_profiles s) = [Some t]
                       /\ map Db.updated_at (Db.user_profiles s') = [Some t']
                       /\ t < t').
Proof.
  cbv zeta. split; [repeat split; reflexivity |].
  split; [vm_compute; reflexivity |].
  split; [vm_compute; reflexivity |].
  intros H. destruct (H _ eq_refl) as (t & t' & Ht & Ht' & Hlt).
  vm_compute in Ht, Ht'. injection Ht as <-. injection Ht' as <-. lia.
Qed.

(** ** Row security *)

Lemma with_user_profiles_same (s : Db.store) :
  Db.with_user_profiles (Db.user_profiles s) s = s.
Proof. now destruct s. Qed.

Lemma filter_all {A : Type} (f : A -> bool) (l : list A) :
  (forall a, f a = true) -> filter f l = l.
Proof.
  intros Hf. induction l as [| a l IH]; cbn; [reflexivity |].
  now rewrite Hf, IH.
Qed.

Lemma rls_enabled_provisioned (s : Db.store) :
  Db.provisioned s -> Db.rls_enabled s = true.
Proof.
  intros Hp. destruct (provisioned_catalog s Hp) as (Ht & _).
  unfold Db.rls_enabled. now rewrite Ht.
Qed.

(** What the three policies let through, per command. *)
Lemma using_passes_provisioned (s : Db.store) (c : Db.command) (r : Db.role)
      (uid : option Db.uuid) (row : Db.user_profile) :
  Db.provisioned s ->
  Db.using_passes s c r uid row
  = match c, r with
    | Db.SELECT, Db.authenticated | Db.UPDATE, Db.authenticated =>
        Db.sql_eqb uid (Db.id row)
    | Db.INSERT, Db.authenticated => true
    | _, _ => false
    end.
Proof.
  intros Hp. unfold Db.using_passes.
  rewrite (rls_enabled_provisioned s Hp).
  destruct (provisioned_catalog s Hp) as (_ & -> & _).
  unfold Db.applies.
  destruct c, r; cbn; rewrite ?orb_false_r; reflexivity.
Qed.

Lemma check_passes_provisioned (s : Db.store) (c : Db.command) (r : Db.role)
      (uid : option Db.uuid) (row : Db.user_profile) :
  Db.provisioned s ->
  Db.check_passes s c r uid row
  = match c, r with
    | Db.INSERT, Db.authenticated | Db.UPDATE, Db.authenticated =>
        Db.sql_eqb uid (Db.id row)
    | Db.SELECT, Db.authenticated => Db.sql_eqb uid (Db.id row)
    | _, _ => false
    end.
Proof.
  intros Hp. unfold Db.check_passes.
  rewrite (rls_enabled_provisioned s Hp).
  destruct (provisioned_catalog s Hp) as (_ & -> & _).
  unfold Db.applies.
  destruct c, r; cbn; rewrite ?orb_false_r; reflexivity.
Qed.

(** C9. In a provisioned store an authenticated client whose [auth.uid()]
    is [me] reads, updates and inserts only the row whose id is [me]:
    [SELECT] returns only that row, [UPDATE] changes only that row and
    must leave its id equal to [me], [INSERT] is refused unless the new
    row's id is [me] (with a row-security violation, or with "integer out
    of range" when the points do not fit the column); a client with no
    uid, or with role [anon], passes no policy.  No policy covers [DELETE], so a client's [DELETE] removes no
    row whatever its role and uid; rows go away only with their identity,
    by [ON DELETE CASCADE]. *)
Theorem row_security_own_row_only
        (s : Db.store) (me i : Db.uuid) (row : Db.user_profile)
        (r : Db.role) (uid : option Db.uuid) (c : Db.command)
        (now : Db.timestamptz) (where_ : Db.user_profile -> bool)
        (v : Db.profile_insert) (u : Db.profile_update) :
  Db.provisioned s ->
  let own x := Db.sql_eqb (Some me) (Db.id x) in
  Db.using_passes s Db.SELECT Db.authenticated (Some me) row = own row
  /\ Db.using_passes s Db.UPDATE Db.authenticated (Some me) row = own row
  /\ Db.check_passes s Db.UPDATE Db.authenticated (Some me) row = own row
  /\ Db.check_passes s Db.INSERT Db.authenticated (Some me) row = own row
  /\ Db.using_passes s Db.DELETE r uid row = false
  /\ Db.using_passes s c Db.anon uid row = false
  /\ Db.check_passes s c Db.anon uid row = false
  /\ Db.using_passes s Db.SELECT r None row = false
  /\ Db.using_passes s Db.UPDATE r None row = false
  /\ Db.check_passes s Db.UPDATE r None row = false
  /\ Db.check_passes s Db.INSERT r None row = false
  /\ Db.select_as Db.authenticated (Some me) where_ s
     = filter (fun x => where_ x && own x) (Db.user_profiles s)
  /\ Db.insert_as Db.authenticated (Some me) now v s
     = (if own (Db.new_tuple now v) then Db.insert_user_profiles now v s
        else inl (if Db.insert_fits v
                  then Db.row_security_violation "user_profiles"
                  else Db.numeric_value_out_of_range "integer"))
  /\ (forall s', Db.update_as Db.authenticated (Some me) now u where_ s = inr s' ->
        Db.user_profiles s'
        = map (fun OLD => if where_ OLD && own OLD
                          then Db.update_updated_at_column now (Db.apply_set u OLD)
                          else OLD)
              (Db.user_profiles s)
        /\ Forall (fun OLD => where_ OLD && own OLD = true ->
                              own (Db.update_updated_at_column now (Db.apply_set u OLD))
                              = true)
                  (Db.user_profiles s))
  /\ Db.delete_as r uid where_ s = s
  /\ filter (fun p => Db.command_eqb (Db.polcmd p) Db.DELETE) (Db.policies s) = []
  /\ Db.user_profiles (Db.delete_auth_user i s)
     = filter (fun x => negb (Db.sql_eqb (Db.id x) (Some i))) (Db.user_profiles s)
  /\ Forall (fun x => Db.sql_eqb (Db.id x) (Some i) = false)
            (Db.user_profiles (Db.delete_auth_user i s)).
Proof.
  intros Hp own.
  pose proof (using_passes_provisioned s) as U.
  pose proof (check_passes_provisioned s) as C.
  assert (Hsel : forall x, Db.using_passes s Db.SELECT Db.authenticated (Some me) x = own x)
    by (intros x; now rewrite U).
  assert (Hupd : forall x, Db.using_passes s Db.UPDATE Db.authenticated (Some me) x = own x)
    by (intros x; now rewrite U).
  assert (Hchk : forall x, Db.check_passes s Db.UPDATE Db.authenticated (Some me) x = own x)
    by (intros x; now rewrite C).
  assert (Htab : Db.has_table "user_profiles" s = true)
    by (apply has_user_profiles_provisioned; exact Hp).
  split; [apply Hsel |]. split; [apply Hupd |]. split; [apply Hchk |].
  split; [now rewrite C |].
  split; [rewrite U by exact Hp; now destruct r |].
  split; [rewrite U by exact Hp; now destruct c |].
  split; [rewrite C by exact Hp; now destruct c |].
  split; [rewrite U by exact Hp; now destruct r |].
  split; [rewrite U by exact Hp; now destruct r |].
  split; [rewrite C by exact Hp; now destruct r |].
  split; [rewrite C by exact Hp; now destruct r |].
  split.
  { unfold Db.select_as. apply filter_ext. intros x. now rewrite Hsel. }
  split.
  { unfold Db.insert_as. rewrite Htab, C by exact Hp. cbn [negb]. unfold own.
    destruct (Db.insert_fits v) eqn:Hfit; cbn [negb].
    - now destruct (Db.sql_eqb (Some me) (Db.id (Db.new_tuple now v))).
    - unfold Db.insert_user_profiles. rewrite Htab, Hfit. cbn [negb].
      now destruct (Db.sql_eqb (Some me) (Db.id (Db.new_tuple now v))). }
  split.
  { intros s' H. unfold Db.update_as in H. rewrite Htab in H. cbn [negb] in H.
    revert H.
    destruct (negb (Db.update_fits u)); [discriminate |].
    destruct (Db.update_rows _ _ _ _ _ _ _) as [e | rows] eqn:Hrows; [discriminate |].
    intros H. injection H as <-.
    destruct (update_rows_result now s u _ _ Hp _ _ _ Hrows) as [-> Hall].
    cbn [Db.user_profiles Db.with_user_profiles app]. split.
    - apply map_ext. intros x. rewrite Hsel, Hupd.
      destruct (where_ x), (own x); reflexivity.
    - apply Forall_forall. intros x Hx Hown.
      rewrite Forall_forall in Hall. specialize (Hall x Hx).
      rewrite Hsel, Hupd, Hchk in Hall. apply Hall.
      destruct (where_ x), (own x); try discriminate; reflexivity. }
  split.
  { unfold Db.delete_as. rewrite filter_all; [apply with_user_profiles_same |].
    intros x. rewrite (U Db.DELETE) by exact Hp.
    destruct r; now rewrite andb_false_r. }
  split.
  { destruct (provisioned_catalog s Hp) as (_ & -> & _). reflexivity. }
  split; [reflexivity |].
  cbn [Db.delete_auth_user Db.user_profiles Db.with_user_profiles].
  apply Forall_forall. intros x Hx. apply filter_In in Hx.
  destruct Hx as [_ Hx]. now apply negb_true_iff in Hx.
Qed.

Lemma row_security_own_row_only_witness :
  let s := Db.mkStore
             [Db.mkTable "auth.users" false; Db.mkTable "user_profiles" true]
             [Db.users_can_read_own_profile; Db.users_can_update_own_profile;
              Db.users_can_insert_own_profile]
             [("handle_new_user", Db.handle_new_user_body);
              ("update_updated_at_column", Db.update_updated_at_column_body)]
             [Db.on_auth_user_created; Db.update_user_profiles_updated_at]
             [Db.mkAuthUser "u1" (Some "a@x.com") None;
              Db.mkAuthUser "u2" (Some "b@x.com") None]
             [Db.mkProfile (Some "u1") (Some "a@x.com") (Some "") (Some 1000)
                           (Some 100) (Some 100);
              Db.mkProfile (Some "u2") (Some "b@x.com") (Some "") (Some 1000)
                           (Some 200) (Some 200)] in
  Db.provisioned s
  /\ Db.select_as Db.authenticated (Some "u1") (fun _ => true) s
     = [Db.mkProfile (Some "u1") (Some "a@x.com") (Some "") (Some 1000)
                     (Some 100) (Some 100)]
  /\ Db.delete_as Db.authenticated (Some "u1") (fun _ => true) s = s.
Proof.
  intros s.
  assert (Hp : Db.provisioned s) by (repeat split; reflexivity).
  pose proof (row_security_own_row_only
                s "u1" "u1"
                (Db.mkProfile (Some "u2") (Some "b@x.com") (Some "") (Some 1000)
                              (Some 200) (Some 200))
                Db.authenticated (Some "u1") Db.DELETE 300 (fun _ => true)
                (Db.mkInsert Db.DEFAULT Db.DEFAULT Db.DEFAULT Db.DEFAULT
                             Db.DEFAULT Db.DEFAULT)
                (Db.mkUpdate None None None None None None) Hp) as H.
  cbv zeta in H.
  destruct H as (_ & _ & _ & _ & _ & _ & _ & _ & _ & _ & _ & Hsel & _ & _ & Hdel & _).
  split; [exact Hp |]. split; [| exact Hdel].
  etransitivity; [exact Hsel | reflexivity].
Defined.

(** * Further properties of the screens *)

(** ** Fetching with a user *)

(** X1. Whatever the outcome, a fetch made with a user issues exactly one
    query, on [user_profiles] filtered by the user's id, raises an alert
    exactly when it failed, touches [refreshing] not at all, and ends with
    [setLoading(false)]: the screen has left its loading view.  The two
    screens run the same effects. *)
Theorem fetch_with_user_ends_loading (u : User) (res : Settled) (st : ScreenState) :
  let es := HomeScreen.fetchUserProfile (Some u) res in
  filter isQuery es = [SelectSingle "user_profiles" "*" "id" (user_id u)]
  /\ List.length (filter isAlert es) = (if fetchFailed res then 1%nat else 0%nat)
  /\ List.length (filter isSetUserProfile es)
     = (if fetchFailed res then 0%nat else 1%nat)
  /\ last es (SetLoading true) = SetLoading false
  /\ loading (runEffects es st) = false
  /\ refreshing (runEffects es st) = refreshing st
  /\ ProfileScreen.fetchUserProfile (Some u) res = es.
Proof.
  destruct res as [r | reason]; cbn.
  - destruct (error r); cbn; repeat split; reflexivity.
  - repeat split; reflexivity.
Qed.

(** X2. A response without an error replaces the stored profile by its
    [data], whatever was stored, and raises no alert.  With a row whose
    points are a number, the home screen shows the formatted points and
    the badge of the row's tier, and greets by the row's name, or by
    "User" when the name is empty or null; the profile screen shows the same
    with its own badge.  With a row whose points are null, building
    either screen throws a [TypeError] at [toLocaleString].  With [data]
    null the stored profile is cleared: the screens fall back to "User",
    "0" and no badge. *)
Theorem successful_fetch_stores_data
        (toLocaleString : Z -> string) (u : User) (d : option UserProfile)
        (p : UserProfile) (st : ScreenState) :
  let run d := runEffects
                 (HomeScreen.fetchUserProfile (Some u) (Fulfilled (mkResponse d None)))
                 st in
  let name := match full_name p with
              | Some n => if String.eqb n "" then "User" else n
              | None => "User"
              end in
  run d = mkState d false (refreshing st)
  /\ filter isAlert
       (HomeScreen.fetchUserProfile (Some u) (Fulfilled (mkResponse d None))) = []
  /\ HomeScreen.render toLocaleString (run (Some p))
     = match points p with
       | Some z =>
           HomeScreen.ContentView
             (name ++ "!")
             (toLocaleString z)
             (Some (level (HomeScreen.getMembershipLevel z) ++ " Member",
                    color (HomeScreen.getMembershipLevel z)))
             (refreshing st)
       | None => HomeScreen.Throws TypeError
       end
  /\ ProfileScreen.render toLocaleString (run (Some p))
     = match points p with
       | Some z =>
           ProfileScreen.ContentView
             name
             ((if String.eqb (toLocaleString z) "" then "0" else toLocaleString z)
                ++ " Points")
             (Some (match icon (ProfileScreen.getMembershipLevel z) with
                    | Some i => i
                    | None => ""
                    end,
                    level (ProfileScreen.getMembershipLevel z),
                    color (ProfileScreen.getMembershipLevel z)))
             (Some (email p))
             (refreshing st)
       | None => ProfileScreen.Throws TypeError
       end
  /\ HomeScreen.render toLocaleString (run None)
     = HomeScreen.ContentView "User!" "0" None (refreshing st)
  /\ ProfileScreen.render toLocaleString (run None)
     = ProfileScreen.ContentView "User" "0 Points" None None (refreshing st).
Proof.
  cbn. repeat split; try reflexivity.
  - destruct (points p); reflexivity.
  - destruct (points p); reflexivity.
Qed.

(** ** Pull-to-refresh *)

(** X3. [onRefresh] raises [refreshing] first and lowers it last: every
    state between its first and its last effect has [refreshing = true],
    and the state it ends in has [refreshing = false], whether the fetch
    succeeded, failed, or did not run for want of a user.  Without a user
    it changes nothing else; with one it also ends with [loading = false]. *)
Theorem onRefresh_refreshing_flag
        (user : option User) (u : User) (res : Settled) (st : ScreenState) :
  let es := HomeScreen.onRefresh user res in
  refreshing (runEffects es st) = false
  /\ Forall (fun s => refreshing s = true)
            (List.tl (statesDuring (removelast es) st))
  /\ runEffects (HomeScreen.onRefresh None res) st
     = mkState (userProfile st) (loading st) false
  /\ loading (runEffects (HomeScreen.onRefresh (Some u) res) st) = false
  /\ ProfileScreen.onRefresh user res = es.
Proof.
  cbv zeta. split; [| split; [| split; [reflexivity | split; [| reflexivity]]]].
  - destruct user as [v |]; [| reflexivity].
    destruct res as [r | reason]; cbn; [destruct (error r) |]; reflexivity.
  - destruct user as [v |]; [| cbn; repeat constructor].
    destruct res as [r | reason]; cbn;
      [destruct (error r) |]; cbn; repeat constructor.
  - destruct res as [r | reason]; cbn; [destruct (error r) |]; reflexivity.
Qed.

(** ** The classifier *)

(** X4. More points never mean a lower tier: on both screens the
    classifier is monotone for the order Bronze, Silver, Gold, Diamond. *)
Theorem getMembershipLevel_monotone (p q : Z) :
  p <= q ->
  (tierRank (level (HomeScreen.getMembershipLevel p))
   <= tierRank (level (HomeScreen.getMembershipLevel q)))%nat
  /\ (tierRank (level (ProfileScreen.getMembershipLevel p))
      <= tierRank (level (ProfileScreen.getMembershipLevel q)))%nat.
Proof.
  intros Hpq.
  unfold HomeScreen.getMembershipLevel, ProfileScreen.getMembershipLevel.
  destruct (Z.geb_spec p 10000), (Z.geb_spec p 5000), (Z.geb_spec p 1000),
           (Z.geb_spec q 10000), (Z.geb_spec q 5000), (Z.geb_spec q 1000);
    try lia; cbn; split; repeat constructor.
Qed.

Lemma getMembershipLevel_monotone_witness :
  4999 <= 5000
  /\ (tierRank (level (HomeScreen.getMembershipLevel 4999))
      <= tierRank (level (HomeScreen.getMembershipLevel 5000)))%nat.
Proof.
  assert (H : 4999 <= 5000) by lia.
  split; [exact H |].
  exact (proj1 (getMembershipLevel_monotone 4999 5000 H)).
Defined.

(** X5. The home screen's Level stat and the tier go together: with a
    stored profile the stat is the number [n] of whole hundreds of points,
    and the badge is Diamond exactly from level 100, Gold on levels 50 to
    99, Silver on 10 to 49, Bronze below 10; without a profile the stat is
    the string "0".  (Null points count as 0 in the division and the
    comparisons.) *)
Theorem levelStat_and_tier (p : UserProfile) (l r : bool) :
  HomeScreen.levelStat (mkState None l r) = HomeScreen.StringChild "0"
  /\ exists n,
      HomeScreen.levelStat (mkState (Some p) l r) = HomeScreen.NumberChild n
      /\ 100 * n <= ToNumber (points p) < 100 * n + 100
      /\ ((100 <= n
           /\ level (HomeScreen.getMembershipLevel (ToNumber (points p))) = "Diamond")
          \/ (50 <= n < 100
              /\ level (HomeScreen.getMembershipLevel (ToNumber (points p))) = "Gold")
          \/ (10 <= n < 50
              /\ level (HomeScreen.getMembershipLevel (ToNumber (points p))) = "Silver")
          \/ (n < 10
              /\ level (HomeScreen.getMembershipLevel (ToNumber (points p))) = "Bronze")).
Proof.
  split; [reflexivity |].
  exists (ToNumber (points p) / 100). split; [reflexivity |].
  generalize (ToNumber (points p)). intros z.
  pose proof (Z.div_mod z 100 ltac:(lia)) as Hdm.
  pose proof (Z.mod_pos_bound z 100 ltac:(lia)) as Hm.
  split; [lia |].
  unfold HomeScreen.getMembershipLevel.
  destruct (Z.geb_spec z 10000); [left; split; [lia | reflexivity] |].
  destruct (Z.geb_spec z 5000);
    [right; left; split; [lia | reflexivity] |].
  destruct (Z.geb_spec z 1000);
    [right; right; left; split; [lia | reflexivity] |].
  right; right; right; split; [lia | reflexivity].
Qed.

(** ** Signing out *)

(** X6. The sign-out prompt has the two buttons Cancel and Sign Out.
    Pressing Cancel, or nothing that is a button, does nothing.  Pressing
    Sign Out calls [signOut()] once; the route is replaced by the sign-in
    screen only after that call has resolved, and not at all when it
    throws. *)
Theorem handleSignOut_press (n : nat) (c : ProfileScreen.Completion) :
  map ProfileScreen.buttonText (ProfileScreen.buttons ProfileScreen.handleSignOut)
  = ["Cancel"; "Sign Out"]
  /\ ((n <> 1%nat /\ ProfileScreen.press ProfileScreen.handleSignOut n c = [])
      \/ (n = 1%nat /\ c = ProfileScreen.Resolved
          /\ ProfileScreen.press ProfileScreen.handleSignOut n c
             = [ProfileScreen.CallSignOut;
                ProfileScreen.RouterReplace "/(auth)/sign-in"])
      \/ (n = 1%nat /\ (exists reason, c = ProfileScreen.Threw reason)
          /\ ProfileScreen.press ProfileScreen.handleSignOut n c
             = [ProfileScreen.CallSignOut])).
Proof.
  split; [reflexivity |].
  destruct n as [| [| n]].
  - left. split; [discriminate | reflexivity].
  - right. destruct c as [| reason].
    + left. repeat split.
    + right. repeat split. now exists reason.
  - left. split; [discriminate |].
    unfold ProfileScreen.press. cbn. now destruct n.
Qed.

(** ** The splash router, in general *)

(** X7. Over any sequence of renders, from any earlier dependencies, every
    router call of the splash screen is the [replace] that belongs to one
    of the renders with a resolved auth state: to the tabs only if that
    render had a user, to sign-in only if it had none, and never anywhere
    else; and there is at most one call per render. *)
Theorem navigation_only_for_resolved_renders
        (prev : option IndexScreen.Auth) (renders : list IndexScreen.Auth) :
  Forall (fun c => exists a,
              In a renders /\ IndexScreen.authLoading a = false
              /\ c = IndexScreen.Replace (match IndexScreen.user a with
                                          | Some _ => "/(tabs)"
                                          | None => "/(auth)/sign-in"
                                          end))
         (IndexScreen.navigation prev renders)
  /\ (List.length (IndexScreen.navigation prev renders) <= List.length renders)%nat.
Proof.
  revert prev. induction renders as [| a rest IH]; intros prev.
  - split; [constructor | apply Nat.le_refl].
  - destruct (IH (Some a)) as [IHall IHlen].
    assert (Hrest : Forall (fun c => exists b,
                       In b (a :: rest) /\ IndexScreen.authLoading b = false
                       /\ c = IndexScreen.Replace
                                (match IndexScreen.user b with
                                 | Some _ => "/(tabs)"
                                 | None => "/(auth)/sign-in"
                                 end))
                     (IndexScreen.navigation (Some a) rest)).
    { eapply Forall_impl; [| exact IHall].
      intros c (b & Hb & Hl & Hc). exists b. split; [now right | now split]. }
    cbn [IndexScreen.navigation].
    set (now_ := match prev with
                 | Some p => if IndexScreen.sameDeps p a then []
                             else IndexScreen.effect a
                 | None => IndexScreen.effect a
                 end).
    assert (Hnow : now_ = [] \/ (now_ = IndexScreen.effect a
                                 /\ IndexScreen.authLoading a = false)).
    { subst now_. rewrite effect_cases.
      destruct prev as [p |]; [destruct (IndexScreen.sameDeps p a) |];
        destruct (IndexScreen.authLoading a); auto. }
    destruct Hnow as [-> | [-> Hl]].
    + split; [exact Hrest | cbn; lia].
    + rewrite effect_cases, Hl. split.
      * constructor; [| exact Hrest].
        exists a. split; [now left | now split].
      * cbn. lia.
Qed.

(** * Further properties of the migration *)

(** ** The statements, one at a time *)

Lemma find_name_app {B : Type} (n : string) (l1 l2 : list (string * B)) :
  find (fun f => String.eqb (fst f) n) (l1 ++ l2)
  = match find (fun f => String.eqb (fst f) n) l1 with
    | Some f => Some f
    | None => find (fun f => String.eqb (fst f) n) l2
    end.
Proof.
  induction l1 as [| f l1 IH]; cbn; [reflexivity |].
  now destruct (String.eqb (fst f) n).
Qed.

(** Replacing the entries named [n] binds [n] to the new body ... *)
Lemma find_replaced_same {B : Type} (n : string) (b : B) (fs : list (string * B)) :
  find (fun f => String.eqb (fst f) n) fs <> None ->
  find (fun f => String.eqb (fst f) n)
       (map (fun f => if String.eqb (fst f) n then (n, b) else f) fs)
  = Some (n, b).
Proof.
  induction fs as [| f fs IH]; cbn; [congruence |].
  destruct (String.eqb (fst f) n) eqn:E; cbn.
  - now rewrite String.eqb_refl.
  - now rewrite E.
Qed.

(** ... and leaves what the other names are bound to. *)
Lemma find_replaced_other {B : Type} (n m : string) (b : B) (fs : list (string * B)) :
  m <> n ->
  option_map snd
    (find (fun f => String.eqb (fst f) m)
          (map (fun f => if String.eqb (fst f) n then (n, b) else f) fs))
  = option_map snd (find (fun f => String.eqb (fst f) m) fs).
Proof.
  intros Hmn. induction fs as [| f fs IH]; cbn; [reflexivity |].
  destruct (String.eqb_spec (fst f) n) as [E | E]; cbn.
  - rewrite E. destruct (String.eqb_spec n m) as [E' | _]; [congruence | exact IH].
  - destruct (String.eqb (fst f) m); [reflexivity | exact IH].
Qed.

(** [CREATE OR REPLACE FUNCTION] always goes through, binds the name to
    the new body, and touches nothing else. *)
Lemma exec_create_or_replace (n : string) (b : Db.function_body) (s : Db.store) :
  exists s1,
    Db.exec (Db.CREATE_FUNCTION true n b) s = inr s1
    /\ Db.lookup_function n s1 = Some b
    /\ (forall m, m <> n -> Db.lookup_function m s1 = Db.lookup_function m s)
    /\ Db.tables s1 = Db.tables s /\ Db.policies s1 = Db.policies s
    /\ Db.triggers s1 = Db.triggers s /\ Db.auth_users s1 = Db.auth_users s
    /\ Db.user_profiles s1 = Db.user_profiles s.
Proof.
  cbn [Db.exec]. unfold Db.lookup_function.
  destruct (find (fun f => String.eqb (fst f) n) (Db.functions s)) as [f |] eqn:Hf;
    cbn [option_map]; eexists; (split; [reflexivity |]);
    cbn [Db.functions Db.with_functions Db.tables Db.policies Db.triggers
         Db.auth_users Db.user_profiles].
  - repeat split.
    + rewrite find_replaced_same; [reflexivity | congruence].
    + intros m Hm. now apply find_replaced_other.
  - repeat split.
    + rewrite find_name_app, Hf. cbn. now rewrite String.eqb_refl.
    + intros m Hm. rewrite find_name_app.
      destruct (find (fun f => String.eqb (fst f) m) (Db.functions s));
        [reflexivity |]. cbn.
      destruct (String.eqb_spec n m); [congruence | reflexivity].
Qed.

Lemma has_trigger_named (n t : string) (s : Db.store) :
  Db.pg_trigger_named n s = false -> Db.has_trigger n t s = false.
Proof.
  unfold Db.pg_trigger_named, Db.has_trigger.
  induction (Db.triggers s) as [| g gs IH]; cbn; [reflexivity |].
  destruct (String.eqb (Db.tgname g) n); cbn; [discriminate | exact IH].
Qed.

(** A guarded [CREATE TRIGGER] that went through has appended the trigger
    unless one of that name was there, and touched nothing else. *)
Lemma exec_guarded_trigger (t : Db.trigger) (s s1 : Db.store) :
  Db.exec (Db.DO_IF_NOT_EXISTS_PG_TRIGGER (Db.tgname t) (Db.CREATE_TRIGGER t)) s
  = inr s1 ->
  Db.triggers s1
  = (Db.triggers s ++ if Db.pg_trigger_named (Db.tgname t) s then [] else [t])%list
  /\ Db.tables s1 = Db.tables s /\ Db.policies s1 = Db.policies s
  /\ Db.functions s1 = Db.functions s /\ Db.auth_users s1 = Db.auth_users s
  /\ Db.user_profiles s1 = Db.user_profiles s.
Proof.
  cbn [Db.exec].
  destruct (Db.pg_trigger_named (Db.tgname t) s); cbn [negb].
  - intros H. injection H as <-. rewrite app_nil_r. repeat split.
  - destruct (negb (Db.has_table _ _)); [discriminate |].
    destruct (Db.lookup_function _ _); [| discriminate].
    destruct (Db.has_trigger _ _ _); [discriminate |].
    intros H. injection H as <-. repeat split.
Qed.

(** It goes through when a trigger of that name is there, or when the
    table and the function are. *)
Lemma exec_guarded_trigger_ok (t : Db.trigger) (b : Db.function_body) (s : Db.store) :
  Db.has_table (Db.tgtable t) s = true ->
  Db.lookup_function (Db.tgfunction t) s = Some b ->
  exists s1,
    Db.exec (Db.DO_IF_NOT_EXISTS_PG_TRIGGER (Db.tgname t) (Db.CREATE_TRIGGER t)) s
    = inr s1.
Proof.
  intros Ht Hf. cbn [Db.exec].
  destruct (Db.pg_trigger_named (Db.tgname t) s) eqn:Hn; cbn [negb];
    [now eexists |].
  rewrite Ht, Hf, (has_trigger_named _ _ _ Hn). cbn [negb]. now eexists.
Qed.

Lemma exec_create_policy (p : Db.policy) (s s1 : Db.store) :
  Db.exec (Db.CREATE_POLICY p) s = inr s1 ->
  Db.policies s1 = (Db.policies s ++ [p])%list
  /\ Db.has_policy (Db.polname p) (Db.poltable p) s = false
  /\ Db.tables s1 = Db.tables s /\ Db.functions s1 = Db.functions s
  /\ Db.triggers s1 = Db.triggers s /\ Db.auth_users s1 = Db.auth_users s
  /\ Db.user_profiles s1 = Db.user_profiles s.
Proof.
  cbn [Db.exec].
  destruct (negb (Db.has_table _ _)); [discriminate |].
  destruct (Db.has_policy _ _ _); [discriminate |].
  intros H. injection H as <-. repeat split.
Qed.

Lemma exec_create_table_user_profiles (s s1 : Db.store) :
  Db.exec (Db.CREATE_TABLE true "user_profiles" ["auth.users"]) s = inr s1 ->
  Db.tables s1
  = (Db.tables s ++ if Db.has_table "user_profiles" s then []
                    else [Db.mkTable "user_profiles" false])%list
  /\ Db.user_profiles s1
     = (if Db.has_table "user_profiles" s then Db.user_profiles s else [])
  /\ Db.policies s1 = Db.policies s /\ Db.functions s1 = Db.functions s
  /\ Db.triggers s1 = Db.triggers s /\ Db.auth_users s1 = Db.auth_users s.
Proof.
  cbn [Db.exec].
  destruct (Db.has_table "user_profiles" s).
  - intros H. injection H as <-. rewrite app_nil_r. repeat split.
  - cbn [find]. destruct (negb (Db.has_table "auth.users" s)); [discriminate |].
    intros H. injection H as <-. repeat split.
Qed.

Lemma exec_enable_rls (n : string) (s s1 : Db.store) :
  Db.exec (Db.ALTER_TABLE_ENABLE_ROW_LEVEL_SECURITY n) s = inr s1 ->
  Db.tables s1 = map (Db.enable_rls n) (Db.tables s)
  /\ Db.has_table n s = true
  /\ Db.policies s1 = Db.policies s /\ Db.functions s1 = Db.functions s
  /\ Db.triggers s1 = Db.triggers s /\ Db.auth_users s1 = Db.auth_users s
  /\ Db.user_profiles s1 = Db.user_profiles s.
Proof.
  cbn [Db.exec].
  destruct (Db.has_table n s); [| discriminate].
  intros H. injection H as <-. repeat split.
Qed.

(** ** A whole run *)

(** What a run of the migration that went through has done to the store it
    started from. *)
Lemma migration_run_shape (s s' : Db.store) :
  Db.run_script Db.migration s = (s', None) ->
  Db.tables s'
  = map (Db.enable_rls "user_profiles")
        (Db.tables s ++ if Db.has_table "user_profiles" s then []
                        else [Db.mkTable "user_profiles" false])
  /\ Db.policies s'
     = (Db.policies s ++ [Db.users_can_read_own_profile;
                          Db.users_can_update_own_profile;
                          Db.users_can_insert_own_profile])%list
  /\ Db.has_policy "Users can read own profile" "user_profiles" s = false
  /\ Db.lookup_function "handle_new_user" s' = Some Db.handle_new_user_body
  /\ Db.lookup_function "update_updated_at_column" s'
     = Some Db.update_updated_at_column_body
  /\ (forall m, m <> "handle_new_user" -> m <> "update_updated_at_column" ->
                Db.lookup_function m s' = Db.lookup_function m s)
  /\ Db.triggers s'
     = (Db.triggers s
          ++ (if Db.pg_trigger_named "on_auth_user_created" s then []
              else [Db.on_auth_user_created])
          ++ (if Db.pg_trigger_named "update_user_profiles_updated_at" s then []
              else [Db.update_user_profiles_updated_at]))%list
  /\ Db.auth_users s' = Db.auth_users s
  /\ Db.user_profiles s'
     = (if Db.has_table "user_profiles" s then Db.user_profiles s else []).
Proof.
  unfold Db.migration. cbn [Db.run_script].
  destruct (Db.exec _ s) as [e | s1] eqn:E1; [discriminate |].
  destruct (Db.exec _ s1) as [e | s2] eqn:E2; [discriminate |].
  destruct (Db.exec _ s2) as [e | s3] eqn:E3; [discriminate |].
  destruct (Db.exec _ s3) as [e | s4] eqn:E4; [discriminate |].
  destruct (Db.exec _ s4) as [e | s5] eqn:E5; [discriminate |].
  destruct (Db.exec _ s5) as [e | s6] eqn:E6; [discriminate |].
  destruct (Db.exec _ s6) as [e | s7] eqn:E7; [discriminate |].
  destruct (Db.exec _ s7) as [e | s8] eqn:E8; [discriminate |].
  destruct (Db.exec _ s8) as [e | s9] eqn:E9; [discriminate |].
  intros H. injection H as <-.
  apply exec_create_table_user_profiles in E1.
  destruct E1 as (T1 & U1 & P1 & F1 & G1 & A1).
  apply exec_enable_rls in E2. destruct E2 as (T2 & _ & P2 & F2 & G2 & A2 & U2).
  apply exec_create_policy in E3. destruct E3 as (P3 & N3 & T3 & F3 & G3 & A3 & U3).
  apply exec_create_policy in E4. destruct E4 as (P4 & _ & T4 & F4 & G4 & A4 & U4).
  apply exec_create_policy in E5. destruct E5 as (P5 & _ & T5 & F5 & G5 & A5 & U5).
  destruct (exec_create_or_replace "handle_new_user" Db.handle_new_user_body s5)
    as (x & Ex & L6 & O6 & T6 & P6 & G6 & A6 & U6).
  rewrite E6 in Ex. injection Ex as <-.
  apply (exec_guarded_trigger Db.on_auth_user_created) in E7.
  destruct E7 as (G7 & T7 & P7 & F7 & A7 & U7).
  destruct (exec_create_or_replace "update_updated_at_column"
              Db.update_updated_at_column_body s7)
    as (x & Ex & L8 & O8 & T8 & P8 & G8 & A8 & U8).
  rewrite E8 in Ex. injection Ex as <-.
  apply (exec_guarded_trigger Db.update_user_profiles_updated_at) in E9.
  destruct E9 as (G9 & T9 & P9 & F9 & A9 & U9).
  cbn [Db.tgname Db.on_auth_user_created Db.update_user_profiles_updated_at] in G7, G9.
  assert (L7 : forall m, Db.lookup_function m s7 = Db.lookup_function m s6)
    by (intros m; unfold Db.lookup_function; now rewrite F7).
  assert (L9 : forall m, Db.lookup_function m s9 = Db.lookup_function m s8)
    by (intros m; unfold Db.lookup_function; now rewrite F9).
  assert (L5 : forall m, Db.lookup_function m s5 = Db.lookup_function m s)
    by (intros m; unfold Db.lookup_function; now rewrite F5, F4, F3, F2, F1).
  split; [congruence |].
  split.
  { rewrite P9, P8, P7, P6, P5, P4, P3, P2, P1, <- !app_assoc. reflexivity. }
  split.
  { unfold Db.has_policy in *. cbn [Db.polname Db.poltable Db.users_can_read_own_profile] in N3.
    now rewrite P2, P1 in N3. }
  split.
  { rewrite L9, O8, L7 by discriminate. exact L6. }
  split; [now rewrite L9 |].
  split.
  { intros m H1 H2. now rewrite L9, O8, L7, O6, L5. }
  split.
  { assert (Hn1 : Db.pg_trigger_named "on_auth_user_created" s6
                  = Db.pg_trigger_named "on_auth_user_created" s).
    { unfold Db.pg_trigger_named. now rewrite G6, G5, G4, G3, G2, G1. }
    assert (Hn2 : Db.pg_trigger_named "update_user_profiles_updated_at" s8
                  = Db.pg_trigger_named "update_user_profiles_updated_at" s).
    { unfold Db.pg_trigger_named.
      rewrite G8, G7, G6, G5, G4, G3, G2, G1, existsb_app.
      match goal with
      | |- context [if ?c then _ else _] => destruct c
      end; cbn; now rewrite orb_false_r. }
    rewrite G9, Hn2, G8, G7, Hn1, G6, G5, G4, G3, G2, G1, <- app_assoc.
    reflexivity. }
  split; congruence.
Qed.

(** The migration goes through on every store that has the identity table
    and none of the three policies. *)
Lemma migration_goes_through (s : Db.store) :
  Db.has_table "auth.users" s = true ->
  Db.has_policy "Users can read own profile" "user_profiles" s = false ->
  Db.has_policy "Users can update own profile" "user_profiles" s = false ->
  Db.has_policy "Users can insert own profile" "user_profiles" s = false ->
  exists s', Db.run_script Db.migration s = (s', None).
Proof.
  intros Hau N1 N2 N3.
  unfold Db.migration. cbn [Db.run_script].
  (* CREATE TABLE IF NOT EXISTS *)
  assert (E1 : exists s1,
             Db.exec (Db.CREATE_TABLE true "user_profiles" ["auth.users"]) s = inr s1).
  { cbn [Db.exec]. destruct (Db.has_table "user_profiles" s); [now eexists |].
    cbn [find]. rewrite Hau. cbn. now eexists. }
  destruct E1 as (s1 & E1). rewrite E1.
  pose proof (exec_create_table_user_profiles _ _ E1) as (T1 & U1 & P1 & F1 & G1 & A1).
  assert (Hup1 : Db.has_table "user_profiles" s1 = true).
  { unfold Db.has_table at 1. rewrite T1, existsb_app.
    destruct (Db.has_table "user_profiles" s) eqn:E.
    - unfold Db.has_table in E. now rewrite E.
    - cbn. now rewrite orb_true_r. }
  assert (Hau1 : Db.has_table "auth.users" s1 = true).
  { unfold Db.has_table at 1. rewrite T1, existsb_app.
    unfold Db.has_table in Hau. now rewrite Hau. }
  (* ALTER TABLE *)
  set (s2 := Db.with_tables (map (Db.enable_rls "user_profiles") (Db.tables s1)) s1).
  assert (E2 : Db.exec (Db.ALTER_TABLE_ENABLE_ROW_LEVEL_SECURITY "user_profiles") s1
               = inr s2)
    by (cbn [Db.exec]; now rewrite Hup1).
  rewrite E2.
  assert (Ht2 : forall n, Db.has_table n s2 = Db.has_table n s1).
  { intros n. unfold Db.has_table, s2. cbn [Db.tables Db.with_tables].
    apply existsb_relname_enable_rls. }
  assert (Hp2 : forall n, Db.has_policy n "user_profiles" s2
                          = Db.has_policy n "user_profiles" s).
  { intros n. unfold Db.has_policy, s2. cbn [Db.policies Db.with_tables].
    now rewrite P1. }
  (* CREATE POLICY, three times *)
  set (s3 := Db.with_policies (Db.policies s2 ++ [Db.users_can_read_own_profile]) s2).
  assert (E3 : Db.exec (Db.CREATE_POLICY Db.users_can_read_own_profile) s2 = inr s3).
  { cbn [Db.exec Db.poltable Db.polname Db.users_can_read_own_profile].
    now rewrite (Ht2 "user_profiles"), Hup1, Hp2, N1. }
  rewrite E3.
  set (s4 := Db.with_policies (Db.policies s3 ++ [Db.users_can_update_own_profile]) s3).
  assert (E4 : Db.exec (Db.CREATE_POLICY Db.users_can_update_own_profile) s3 = inr s4).
  { cbn [Db.exec Db.poltable Db.polname Db.users_can_update_own_profile].
    replace (Db.has_table "user_profiles" s3) with true
      by (symmetry; apply (eq_trans (Ht2 "user_profiles") Hup1)).
    replace (Db.has_policy "Users can update own profile" "user_profiles" s3)
      with false; [reflexivity |].
    unfold Db.has_policy, s3. cbn [Db.policies Db.with_policies].
    rewrite existsb_app.
    fold (Db.has_policy "Users can update own profile" "user_profiles" s2).
    now rewrite Hp2, N2. }
  rewrite E4.
  set (s5 := Db.with_policies (Db.policies s4 ++ [Db.users_can_insert_own_profile]) s4).
  assert (E5 : Db.exec (Db.CREATE_POLICY Db.users_can_insert_own_profile) s4 = inr s5).
  { cbn [Db.exec Db.poltable Db.polname Db.users_can_insert_own_profile].
    replace (Db.has_table "user_profiles" s4) with true
      by (symmetry; apply (eq_trans (Ht2 "user_profiles") Hup1)).
    replace (Db.has_policy "Users can insert own profile" "user_profiles" s4)
      with false; [reflexivity |].
    unfold Db.has_policy, s4, s3. cbn [Db.policies Db.with_policies].
    rewrite !existsb_app.
    fold (Db.has_policy "Users can insert own profile" "user_profiles" s2).
    now rewrite Hp2, N3. }
  rewrite E5.
  assert (Ht5 : forall n, Db.has_table n s5 = Db.has_table n s1) by exact Ht2.
  (* CREATE OR REPLACE FUNCTION, guarded CREATE TRIGGER, twice *)
  destruct (exec_create_or_replace "handle_new_user" Db.handle_new_user_body s5)
    as (s6 & E6 & L6 & O6 & T6 & _).
  rewrite E6.
  assert (Hau6 : Db.has_table "auth.users" s6 = true)
    by (unfold Db.has_table; rewrite T6; apply (eq_trans (Ht5 "auth.users") Hau1)).
  destruct (exec_guarded_trigger_ok Db.on_auth_user_created _ s6 Hau6 L6) as (s7 & E7).
  cbn [Db.tgname Db.on_auth_user_created] in E7. rewrite E7.
  apply (exec_guarded_trigger Db.on_auth_user_created) in E7.
  destruct E7 as (_ & T7 & _).
  destruct (exec_create_or_replace "update_updated_at_column"
              Db.update_updated_at_column_body s7)
    as (s8 & E8 & L8 & O8 & T8 & _).
  rewrite E8.
  assert (Hup8 : Db.has_table "user_profiles" s8 = true).
  { unfold Db.has_table. rewrite T8, T7, T6.
    apply (eq_trans (Ht5 "user_profiles") Hup1). }
  destruct (exec_guarded_trigger_ok Db.update_user_profiles_updated_at _ s8 Hup8 L8)
    as (s9 & E9).
  cbn [Db.tgname Db.update_user_profiles_updated_at] in E9. rewrite E9.
  now exists s9.
Qed.

Lemma rls_enabled_after_enable (ts : list Db.table) :
  existsb (fun t => String.eqb (Db.relname t) "user_profiles") ts = true ->
  existsb (fun t => String.eqb (Db.relname t) "user_profiles" && Db.relrowsecurity t)
          (map (Db.enable_rls "user_profiles") ts) = true.
Proof.
  induction ts as [| t ts IH]; cbn; [discriminate |].
  unfold Db.enable_rls at 1 2.
  destruct (String.eqb (Db.relname t) "user_profiles") eqn:E; cbn.
  - now rewrite E.
  - rewrite E. cbn. exact IH.
Qed.

(** X8. The migration goes through on every store that has the identity
    table and none of the three policies, whether or not the table, the
    two functions or triggers of the two names are already there.
    Afterwards [user_profiles] exists with row security on, the three
    policies are present, both function names are bound to the script's
    bodies (replacing earlier definitions), and a trigger of each of the
    two names exists. *)
Theorem migration_provisions (s : Db.store) :
  Db.has_table "auth.users" s = true ->
  Db.has_policy "Users can read own profile" "user_profiles" s = false ->
  Db.has_policy "Users can update own profile" "user_profiles" s = false ->
  Db.has_policy "Users can insert own profile" "user_profiles" s = false ->
  exists s',
    Db.run_script Db.migration s = (s', None)
    /\ Db.has_table "user_profiles" s' = true
    /\ Db.rls_enabled s' = true
    /\ Db.has_policy "Users can read own profile" "user_profiles" s' = true
    /\ Db.has_policy "Users can update own profile" "user_profiles" s' = true
    /\ Db.has_policy "Users can insert own profile" "user_profiles" s' = true
    /\ Db.lookup_function "handle_new_user" s' = Some Db.handle_new_user_body
    /\ Db.lookup_function "update_updated_at_column" s'
       = Some Db.update_updated_at_column_body
    /\ Db.pg_trigger_named "on_auth_user_created" s' = true
    /\ Db.pg_trigger_named "update_user_profiles_updated_at" s' = true.
Proof.
  intros Hau N1 N2 N3.
  destruct (migration_goes_through s Hau N1 N2 N3) as (s' & Hrun).
  exists s'. split; [exact Hrun |].
  destruct (migration_run_shape s s' Hrun)
    as (HT & HP & _ & L1 & L2 & _ & HG & _ & _).
  assert (Hin : existsb (fun t => String.eqb (Db.relname t) "user_profiles")
                        (Db.tables s ++ (if Db.has_table "user_profiles" s then []
                                         else [Db.mkTable "user_profiles" false]))
                = true).
  { rewrite existsb_app. destruct (Db.has_table "user_profiles" s) eqn:E.
    - unfold Db.has_table in E. now rewrite E.
    - cbn. now rewrite orb_true_r. }
  split.
  { unfold Db.has_table. now rewrite HT, existsb_relname_enable_rls. }
  split.
  { unfold Db.rls_enabled. rewrite HT. now apply rls_enabled_after_enable. }
  assert (Hg1 : Db.pg_trigger_named "on_auth_user_created" s' = true).
  { unfold Db.pg_trigger_named at 1. rewrite HG, !existsb_app.
    destruct (Db.pg_trigger_named "on_auth_user_created" s) eqn:E.
    - unfold Db.pg_trigger_named in E. now rewrite E.
    - cbn. now rewrite ?orb_true_r. }
  assert (Hg2 : Db.pg_trigger_named "update_user_profiles_updated_at" s' = true).
  { unfold Db.pg_trigger_named at 1. rewrite HG, !existsb_app.
    destruct (Db.pg_trigger_named "update_user_profiles_updated_at" s) eqn:E.
    - unfold Db.pg_trigger_named in E. now rewrite E.
    - destruct (Db.pg_trigger_named "on_auth_user_created" s);
        cbn; now rewrite ?orb_true_r. }
  unfold Db.has_policy. rewrite HP, !existsb_app.
  repeat split; try assumption; cbn; now rewrite !orb_true_r.
Qed.

Lemma migration_provisions_witness :
  Db.has_table "auth.users" Db.fresh_store = true
  /\ exists s', Db.run_script Db.migration Db.fresh_store = (s', None)
                /\ Db.rls_enabled s' = true.
Proof.
  split; [reflexivity |].
  destruct (migration_provisions Db.fresh_store eq_refl eq_refl eq_refl eq_refl)
    as (s' & Hrun & _ & Hrls & _).
  exists s'. now split.
Defined.

(** X9. A run of the migration that goes through leaves the data and the
    existing objects alone: the identities are unchanged, the profile rows
    are unchanged when the table was already there, the policies that
    were there stay in place with exactly the three new ones after them,
    and every function under another name keeps its body. *)
Theorem migration_keeps_data (s s' : Db.store) (m : string) :
  Db.run_script Db.migration s = (s', None) ->
  Db.auth_users s' = Db.auth_users s
  /\ Db.user_profiles s'
     = (if Db.has_table "user_profiles" s then Db.user_profiles s else [])
  /\ Db.policies s'
     = (Db.policies s ++ [Db.users_can_read_own_profile;
                          Db.users_can_update_own_profile;
                          Db.users_can_insert_own_profile])%list
  /\ map Db.relname (Db.tables s')
     = (map Db.relname (Db.tables s)
          ++ if Db.has_table "user_profiles" s then [] else ["user_profiles"])%list
  /\ (if String.eqb m "handle_new_user" || String.eqb m "update_updated_at_column"
      then True
      else Db.lookup_function m s' = Db.lookup_function m s).
Proof.
  intros Hrun.
  destruct (migration_run_shape s s' Hrun)
    as (HT & HP & _ & _ & _ & HO & _ & HA & HU).
  repeat split; try assumption.
  - rewrite HT, map_map.
    rewrite (map_ext _ Db.relname (enable_rls_relname "user_profiles")), map_app.
    now destruct (Db.has_table "user_profiles" s).
  - destruct (String.eqb_spec m "handle_new_user"); [exact I |].
    destruct (String.eqb_spec m "update_updated_at_column"); [exact I |].
    cbn. now apply HO.
Qed.

Lemma migration_keeps_data_witness :
  let s := Db.mkStore
             [Db.mkTable "auth.users" false; Db.mkTable "user_profiles" false]
             [] [("audit", Db.update_updated_at_column_body)] []
             [Db.mkAuthUser "u1" (Some "a@x.com") None]
             [Db.mkProfile (Some "u1") (Some "a@x.com") None (Some 7) None None] in
  snd (Db.run_script Db.migration s) = None
  /\ Db.user_profiles (fst (Db.run_script Db.migration s)) = Db.user_profiles s.
Proof.
  intros s.
  assert (Hrun : Db.run_script Db.migration s
                 = (fst (Db.run_script Db.migration s), None))
    by (vm_compute; reflexivity).
  split; [vm_compute; reflexivity |].
  exact (proj1 (proj2 (migration_keeps_data s _ "audit" Hrun))).
Defined.

(** X10. The guard of each trigger looks at the trigger's name only.  A
    run that goes through appends the signup trigger unless some trigger
    named [on_auth_user_created] exists, on whatever table and with
    whatever function, and likewise for the update trigger; triggers that
    were there are never replaced.  In particular the triggers that fire
    on a new identity are the earlier ones, plus the signup trigger only
    if its name was free. *)
Theorem migration_trigger_guard_by_name (s s' : Db.store) :
  Db.run_script Db.migration s = (s', None) ->
  Db.triggers s'
  = (Db.triggers s
       ++ (if Db.pg_trigger_named "on_auth_user_created" s then []
           else [Db.on_auth_user_created])
       ++ (if Db.pg_trigger_named "update_user_profiles_updated_at" s then []
           else [Db.update_user_profiles_updated_at]))%list
  /\ Db.triggers_on "auth.users" Db.AFTER Db.INSERT s'
     = (Db.triggers_on "auth.users" Db.AFTER Db.INSERT s
          ++ if Db.pg_trigger_named "on_auth_user_created" s then []
             else [Db.on_auth_user_created])%list.
Proof.
  intros Hrun.
  destruct (migration_run_shape s s' Hrun) as (_ & _ & _ & _ & _ & _ & HG & _).
  split; [exact HG |].
  unfold Db.triggers_on. rewrite HG, !filter_app.
  destruct (Db.pg_trigger_named "on_auth_user_created" s),
           (Db.pg_trigger_named "update_user_profiles_updated_at" s);
    cbn; now rewrite ?app_nil_r.
Qed.

(** A trigger of the signup trigger's name on another table: the script
    runs through and no trigger fires on a new identity. *)
Lemma migration_trigger_guard_by_name_witness :
  let s := Db.mkStore
             [Db.mkTable "auth.users" false; Db.mkTable "orders" false]
             [] [("touch", Db.update_updated_at_column_body)]
             [Db.mkTrigger "on_auth_user_created" "orders" Db.BEFORE Db.UPDATE "touch"]
             [] [] in
  snd (Db.run_script Db.migration s) = None
  /\ Db.triggers_on "auth.users" Db.AFTER Db.INSERT (fst (Db.run_script Db.migration s))
     = [].
Proof.
  intros s.
  assert (Hrun : Db.run_script Db.migration s
                 = (fst (Db.run_script Db.migration s), None))
    by (vm_compute; reflexivity).
  split; [vm_compute; reflexivity |].
  rewrite (proj2 (migration_trigger_guard_by_name s _ Hrun)).
  vm_compute. reflexivity.
Defined.

(** * Further properties of the rows *)

(** ** The table constraints are kept *)

Lemma existsb_sql_eqb_false {A : Type} (f : A -> option string) (i : string)
      (l : list A) :
  existsb (fun o => Db.sql_eqb (f o) (Some i)) l = false <-> ~ In (Some i) (map f l).
Proof.
  induction l as [| a l IH]; cbn; [tauto |].
  rewrite orb_false_iff, IH.
  destruct (f a) as [x |]; cbn.
  - destruct (String.eqb_spec x i) as [-> | Hne].
    + split; [intros [H _]; discriminate | intros H; exfalso; apply H; now left].
    + split.
      * intros [_ H] [E | E]; [injection E as E; contradiction | contradiction].
      * intros H. split; [reflexivity | intros E; apply H; now right].
  - split.
    + intros [_ H] [E | E]; [discriminate | contradiction].
    + intros H. split; [reflexivity | intros E; apply H; now right].
Qed.

Lemma existsb_au_id_true (i : string) (us : list Db.auth_user) :
  existsb (fun u => String.eqb (Db.au_id u) i) us = true <-> In i (map Db.au_id us).
Proof.
  induction us as [| u us IH]; cbn; [split; [discriminate | tauto] |].
  rewrite orb_true_iff, IH.
  destruct (String.eqb_spec (Db.au_id u) i); intuition congruence.
Qed.

Lemma NoDup_snoc {A : Type} (l : list A) (x : A) :
  NoDup l -> ~ In x l -> NoDup (l ++ [x]).
Proof.
  intros Hl Hx. apply (NoDup_Add (Add_app x l [])).
  rewrite app_nil_r. now split.
Qed.

Lemma NoDup_map_filter {A B : Type} (f : A -> B) (g : A -> bool) (l : list A) :
  NoDup (map f l) -> NoDup (map f (filter g l)).
Proof.
  induction l as [| a l IH]; cbn; [trivial |].
  intros H. apply NoDup_cons_iff in H. destruct H as [Hin Hnd].
  destruct (g a); cbn; [| now apply IH].
  constructor; [| now apply IH].
  intros Hc. apply Hin. apply in_map_iff in Hc. destruct Hc as (b & Hb & Hf).
  apply in_map_iff. exists b. split; [exact Hb |].
  apply filter_In in Hf. tauto.
Qed.

(** A tuple that passes the constraint check is complete, new in id and
    email among the others, and references an identity. *)
Lemma check_constraints_passed (s : Db.store) (others : list Db.user_profile)
      (r : Db.user_profile) :
  Db.check_constraints s others r = None <->
  exists i e, Db.id r = Some i /\ Db.email r = Some e
              /\ ~ In (Some i) (map Db.id others)
              /\ ~ In (Some e) (map Db.email others)
              /\ In i (map Db.au_id (Db.auth_users s)).
Proof.
  unfold Db.check_constraints. split.
  - destruct (Db.id r) as [i |]; [| discriminate].
    destruct (Db.email r) as [e |]; [| discriminate].
    destruct (existsb _ others) eqn:H1; [discriminate |].
    destruct (existsb (fun o => Db.sql_eqb (Db.email o) (Some e)) others) eqn:H2;
      [discriminate |].
    destruct (existsb _ (Db.auth_users s)) eqn:H3; cbn; [| discriminate].
    intros _. exists i, e. repeat split.
    + now apply existsb_sql_eqb_false.
    + now apply existsb_sql_eqb_false.
    + now apply existsb_au_id_true.
  - intros (i & e & -> & -> & H1 & H2 & H3).
    apply existsb_sql_eqb_false in H1. apply existsb_sql_eqb_false in H2.
    apply existsb_au_id_true in H3.
    cbv beta iota. unfold Db.uuid in *. now rewrite H1, H2, H3.
Qed.

(** Replacing one row by a tuple that passes the check against the other
    rows keeps the constraints. *)
Lemma constraints_replace (s : Db.store) (done rest : list Db.user_profile)
      (OLD NEW : Db.user_profile) :
  Db.constraints_hold (Db.with_user_profiles (done ++ OLD :: rest) s) ->
  Db.check_constraints s (done ++ rest) NEW = None ->
  Db.constraints_hold (Db.with_user_profiles (done ++ NEW :: rest) s).
Proof.
  unfold Db.constraints_hold. cbn [Db.auth_users Db.user_profiles Db.with_user_profiles].
  intros (Hau & Hid & Hem & Hfk) Hc.
  apply check_constraints_passed in Hc.
  destruct Hc as (i & e & Hi & He & Hni & Hne & Hin).
  rewrite !map_app in *. cbn [map] in *.
  split; [exact Hau |]. split; [| split].
  - apply (NoDup_Add (Add_app _ _ _)). rewrite Hi.
    split; [now apply NoDup_remove_1 in Hid | exact Hni].
  - apply (NoDup_Add (Add_app _ _ _)). rewrite He.
    split; [now apply NoDup_remove_1 in Hem | exact Hne].
  - apply Forall_app in Hfk. destruct Hfk as [Hd Hr].
    apply Forall_app. split; [exact Hd |].
    inversion Hr as [| x l _ Hrest]; subst.
    constructor; [| exact Hrest]. now exists i, e.
Qed.

Lemma insert_user_profiles_keeps (now : Db.timestamptz) (v : Db.profile_insert)
      (s s' : Db.store) :
  Db.constraints_hold s ->
  Db.insert_user_profiles now v s = inr s' ->
  Db.constraints_hold s'.
Proof.
  intros (Hau & Hid & Hem & Hfk). unfold Db.insert_user_profiles.
  destruct (negb (Db.has_table "user_profiles" s)); [discriminate |].
  destruct (negb (Db.insert_fits v)); [discriminate |].
  destruct (Db.check_constraints _ _ _) eqn:Hc; [discriminate |].
  intros H. injection H as <-.
  apply check_constraints_passed in Hc.
  destruct Hc as (i & e & Hi & He & Hni & Hne & Hin).
  unfold Db.constraints_hold.
  cbn [Db.auth_users Db.user_profiles Db.with_user_profiles].
  rewrite !map_app. cbn [map]. rewrite Hi, He.
  split; [exact Hau |]. split; [now apply NoDup_snoc |].
  split; [now apply NoDup_snoc |].
  apply Forall_app. split; [exact Hfk |].
  constructor; [| constructor]. now exists i, e.
Qed.

Lemma fire_all_after_insert_keeps (jsonb_out : Db.jsonb -> string)
      (now : Db.timestamptz) (NEW : Db.auth_user) (ts : list Db.trigger) :
  forall s s',
    Db.constraints_hold s ->
    Db.fire_all_after_insert jsonb_out now NEW ts s = inr s' ->
    Db.constraints_hold s'.
Proof.
  induction ts as [| t ts IH]; intros s s' Hs; cbn [Db.fire_all_after_insert].
  - intros H. now injection H as <-.
  - destruct (Db.fire_after_insert jsonb_out now NEW t s) as [e | s1] eqn:Hf;
      [discriminate |].
    apply IH. unfold Db.fire_after_insert in Hf.
    destruct (Db.lookup_function _ _) as [[|] |]; [| | discriminate].
    + now apply (insert_user_profiles_keeps _ _ _ _ Hs Hf).
    + now injection Hf as <-.
Qed.

(** X11. Insertions keep the table constraints.  In any store in which
    they hold (distinct identity ids; profile ids and emails distinct and
    not NULL; every profile id the id of an identity), they hold again
    after a signup that goes through, whatever triggers the store has,
    after an insertion by the owner, and after an insertion by a client. *)
Theorem insertions_keep_constraints
        (jsonb_out : Db.jsonb -> string) (now : Db.timestamptz)
        (NEW : Db.auth_user) (v : Db.profile_insert)
        (r : Db.role) (uid : option Db.uuid) (s : Db.store) :
  Db.constraints_hold s ->
  match Db.insert_auth_user jsonb_out now NEW s with
  | inr s' => Db.constraints_hold s'
  | inl _ => True
  end
  /\ match Db.insert_user_profiles now v s with
     | inr s' => Db.constraints_hold s'
     | inl _ => True
     end
  /\ match Db.insert_as r uid now v s with
     | inr s' => Db.constraints_hold s'
     | inl _ => True
     end.
Proof.
  intros Hs. split; [| split].
  - destruct (Db.insert_auth_user jsonb_out now NEW s) as [e | s'] eqn:H; [exact I |].
    unfold Db.insert_auth_user in H.
    destruct (existsb _ (Db.auth_users s)) eqn:Hfresh; [discriminate |].
    revert H. apply fire_all_after_insert_keeps.
    destruct Hs as (Hau & Hid & Hem & Hfk).
    unfold Db.constraints_hold.
    cbn [Db.auth_users Db.user_profiles Db.with_auth_users].
    rewrite map_app. cbn [map].
    split; [| split; [exact Hid | split; [exact Hem |]]].
    + apply NoDup_snoc; [exact Hau |].
      intros Hin. apply existsb_au_id_true in Hin. congruence.
    + eapply Forall_impl; [| exact Hfk].
      intros row (i & e & Hi & He & Hin). exists i, e.
      repeat split; try assumption. apply in_or_app. now left.
  - destruct (Db.insert_user_profiles now v s) as [e | s'] eqn:H; [exact I |].
    now apply (insert_user_profiles_keeps _ _ _ _ Hs H).
  - unfold Db.insert_as.
    destruct (negb (Db.has_table "user_profiles" s)); [exact I |].
    destruct (negb (Db.insert_fits v)); [exact I |].
    destruct (negb (Db.check_passes _ _ _ _ _)); [exact I |].
    destruct (Db.insert_user_profiles now v s) as [e | s'] eqn:H; [exact I |].
    now apply (insert_user_profiles_keeps _ _ _ _ Hs H).
Qed.

Lemma insertions_keep_constraints_witness :
  let s := fst (Db.run_script Db.migration Db.fresh_store) in
  Db.constraints_hold s
  /\ match Db.insert_auth_user (fun _ => "") 100
             (Db.mkAuthUser "u1" (Some "a@x.com") None) s with
     | inr s' => Db.constraints_hold s'
     | inl _ => True
     end.
Proof.
  intros s.
  assert (Hs : Db.constraints_hold s)
    by (repeat split; cbn; constructor).
  split; [exact Hs |].
  exact (proj1 (insertions_keep_constraints
                  (fun _ => "") 100 (Db.mkAuthUser "u1" (Some "a@x.com") None)
                  (Db.mkInsert Db.DEFAULT Db.DEFAULT Db.DEFAULT Db.DEFAULT
                               Db.DEFAULT Db.DEFAULT)
                  Db.anon None s Hs)).
Defined.

Lemma update_rows_keeps (now : Db.timestamptz) (s : Db.store)
      (u : Db.profile_update) (target check : Db.user_profile -> bool) :
  forall todo done rows,
    Db.update_rows now s u target check done todo = inr rows ->
    Db.constraints_hold (Db.with_user_profiles (done ++ todo) s) ->
    Db.constraints_hold (Db.with_user_profiles rows s).
Proof.
  induction todo as [| OLD rest IH]; intros done rows; cbn [Db.update_rows].
  - intros H. injection H as <-. now rewrite app_nil_r.
  - destruct (target OLD).
    + destruct (Db.fire_all_before_update _ _ _ _) as [e | NEW]; [discriminate |].
      destruct (negb (check NEW)); [discriminate |].
      destruct (Db.check_constraints s (done ++ rest) NEW) eqn:Hc; [discriminate |].
      intros H Hs. apply (IH _ _ H).
      rewrite <- app_assoc. cbn [app].
      now apply (constraints_replace s done rest OLD NEW).
    + intros H Hs. apply (IH _ _ H).
      rewrite <- app_assoc. exact Hs.
Qed.

(** X12. Updates keep the table constraints: in any store in which they
    hold, they hold again after an [UPDATE] that goes through, by the
    owner or by a client, whatever columns it assigns (ids and emails
    included) and whatever triggers the store has. *)
Theorem updates_keep_constraints
        (now : Db.timestamptz) (u : Db.profile_update)
        (where_ : Db.user_profile -> bool)
        (r : Db.role) (uid : option Db.uuid) (s : Db.store) :
  Db.constraints_hold s ->
  match Db.update_user_profiles now u where_ s with
  | inr s' => Db.constraints_hold s'
  | inl _ => True
  end
  /\ match Db.update_as r uid now u where_ s with
     | inr s' => Db.constraints_hold s'
     | inl _ => True
     end.
Proof.
  intros Hs.
  assert (Hs0 : Db.constraints_hold (Db.with_user_profiles ([] ++ Db.user_profiles s) s))
    by (cbn [app]; now rewrite with_user_profiles_same).
  split.
  - unfold Db.update_user_profiles.
    destruct (negb (Db.has_table "user_profiles" s)); [exact I |].
    destruct (negb (Db.update_fits u)); [exact I |].
    destruct (Db.update_rows _ _ _ _ _ _ _) as [e | rows] eqn:H; [exact I |].
    exact (update_rows_keeps _ _ _ _ _ _ _ _ H Hs0).
  - unfold Db.update_as.
    destruct (negb (Db.has_table "user_profiles" s)); [exact I |].
    destruct (negb (Db.update_fits u)); [exact I |].
    destruct (Db.update_rows _ _ _ _ _ _ _) as [e | rows] eqn:H; [exact I |].
    exact (update_rows_keeps _ _ _ _ _ _ _ _ H Hs0).
Qed.

Lemma updates_keep_constraints_witness :
  let s := Db.mkStore
             [Db.mkTable "auth.users" false; Db.mkTable "user_profiles" true]
             [Db.users_can_read_own_profile; Db.users_can_update_own_profile;
              Db.users_can_insert_own_profile]
             [("handle_new_user", Db.handle_new_user_body);
              ("update_updated_at_column", Db.update_updated_at_column_body)]
             [Db.on_auth_user_created; Db.update_user_profiles_updated_at]
             [Db.mkAuthUser "u1" (Some "a@x.com") None]
             [Db.mkProfile (Some "u1") (Some "a@x.com") (Some "") (Some 1000)
                           (Some 100) (Some 100)] in
  let u := Db.mkUpdate None (Some (Some "b@x.com")) None None None None in
  Db.constraints_hold s
  /\ match Db.update_user_profiles 250 u (fun _ => true) s with
     | inr s' => Db.constraints_hold s'
     | inl _ => True
     end.
Proof.
  intros s u.
  assert (Hs : Db.constraints_hold s).
  { repeat split; cbn; repeat constructor; cbn; try tauto.
    exists "u1", "a@x.com". cbn. tauto. }
  split; [exact Hs |].
  exact (proj1 (updates_keep_constraints 250 u (fun _ => true) Db.anon None s Hs)).
Defined.

(** X13. Deletions keep the table constraints.  Deleting an identity
    takes its profile row with it, so no row is left that references a
    missing identity; the other identities and the other profile rows
    stay, unchanged and in order.  A client's [DELETE] keeps the
    constraints as well. *)
Theorem deletions_keep_constraints
        (i : Db.uuid) (r : Db.role) (uid : option Db.uuid)
        (where_ : Db.user_profile -> bool) (s : Db.store) :
  Db.constraints_hold s ->
  Db.constraints_hold (Db.delete_auth_user i s)
  /\ ~ In i (map Db.au_id (Db.auth_users (Db.delete_auth_user i s)))
  /\ ~ In (Some i) (map Db.id (Db.user_profiles (Db.delete_auth_user i s)))
  /\ Db.auth_users (Db.delete_auth_user i s)
     = filter (fun x => negb (String.eqb (Db.au_id x) i)) (Db.auth_users s)
  /\ Db.user_profiles (Db.delete_auth_user i s)
     = filter (fun x => negb (Db.sql_eqb (Db.id x) (Some i))) (Db.user_profiles s)
  /\ (forall row, In row (Db.user_profiles s) -> Db.id row <> Some i ->
                  In row (Db.user_profiles (Db.delete_auth_user i s)))
  /\ (forall row, In row (Db.user_profiles (Db.delete_auth_user i s)) ->
                  In row (Db.user_profiles s))
  /\ Db.constraints_hold (Db.delete_as r uid where_ s).
Proof.
  intros (Hau & Hid & Hem & Hfk).
  unfold Db.delete_auth_user, Db.delete_as, Db.constraints_hold.
  cbn [Db.auth_users Db.user_profiles Db.with_user_profiles Db.with_auth_users].
  split; [split; [| split; [| split]]
         | split; [| split; [| split; [| split; [| split; [| split]]]]]].
  - now apply NoDup_map_filter.
  - now apply NoDup_map_filter.
  - now apply NoDup_map_filter.
  - apply Forall_forall. intros row Hrow. apply filter_In in Hrow.
    destruct Hrow as [Hrow Hkeep]. rewrite Forall_forall in Hfk.
    destruct (Hfk row Hrow) as (j & e & Hj & He & Hin).
    exists j, e. repeat split; try assumption.
    rewrite Hj in Hkeep. cbn in Hkeep.
    apply in_map_iff in Hin. destruct Hin as (a & Ha & Hin).
    apply in_map_iff. exists a. split; [exact Ha |].
    apply filter_In. split; [exact Hin |]. now rewrite Ha.
  - intros Hin. apply in_map_iff in Hin. destruct Hin as (a & Ha & Hin).
    apply filter_In in Hin. destruct Hin as [_ Hne].
    rewrite Ha, String.eqb_refl in Hne. discriminate.
  - intros Hin. apply in_map_iff in Hin. destruct Hin as (row & Hrow & Hin).
    apply filter_In in Hin. destruct Hin as [_ Hne].
    rewrite Hrow in Hne. cbn in Hne. rewrite String.eqb_refl in Hne. discriminate.
  - reflexivity.
  - reflexivity.
  - intros row Hin Hne. apply filter_In. split; [exact Hin |].
    destruct (Db.id row) as [j |]; [| reflexivity]. cbn.
    destruct (String.eqb_spec j i); [congruence | reflexivity].
  - intros row Hin. apply filter_In in Hin. tauto.
  - split; [exact Hau |].
    split; [now apply NoDup_map_filter |].
    split; [now apply NoDup_map_filter |].
    apply Forall_forall. intros row Hrow. apply filter_In in Hrow.
    rewrite Forall_forall in Hfk. now apply Hfk.
Qed.

Lemma deletions_keep_constraints_witness :
  let s := Db.mkStore
             [Db.mkTable "auth.users" false; Db.mkTable "user_profiles" true]
             [Db.users_can_read_own_profile; Db.users_can_update_own_profile;
              Db.users_can_insert_own_profile]
             [("handle_new_user", Db.handle_new_user_body);
              ("update_updated_at_column", Db.update_updated_at_column_body)]
             [Db.on_auth_user_created; Db.update_user_profiles_updated_at]
             [Db.mkAuthUser "u1" (Some "a@x.com") None]
             [Db.mkProfile (Some "u1") (Some "a@x.com") (Some "") (Some 1000)
                           (Some 100) (Some 100)] in
  Db.constraints_hold s
  /\ Db.constraints_hold (Db.delete_auth_user "u1" s).
Proof.
  intros s.
  assert (Hs : Db.constraints_hold s).
  { repeat split; cbn; repeat constructor; cbn; try tauto.
    exists "u1", "a@x.com". cbn. tauto. }
  split; [exact Hs |].
  exact (proj1 (deletions_keep_constraints "u1" Db.anon None (fun _ => true) s Hs)).
Defined.

(** ** Signup, and reading the row back *)

Lemma provisioned_same_catalog (s s' : Db.store) :
  Db.provisioned s ->
  Db.tables s' = Db.tables s -> Db.policies s' = Db.policies s ->
  Db.functions s' = Db.functions s -> Db.triggers s' = Db.triggers s ->
  Db.provisioned s'.
Proof.
  unfold Db.provisioned. intros (H1 & H2 & H3 & H4) -> -> -> ->. tauto.
Qed.

(** X14. Every outcome of a signup in a provisioned store.  It is refused
    as a whole, identity included, when the identity's id is taken, when
    the identity has no email (the profile's email is NOT NULL), when a
    profile already has its id, or when a profile already has its email;
    otherwise the identity and its profile row are stored together. *)
Theorem signup_outcomes
        (jsonb_out : Db.jsonb -> string) (now : Db.timestamptz)
        (NEW : Db.auth_user) (s : Db.store) :
  Db.provisioned s ->
  Db.insert_auth_user jsonb_out now NEW s
  = if existsb (fun u => String.eqb (Db.au_id u) (Db.au_id NEW)) (Db.auth_users s)
    then inl (Db.unique_violation "users_pkey")
    else
      match Db.au_email NEW with
      | None => inl (Db.not_null_violation "email")
      | Some e =>
          if existsb (fun o => Db.sql_eqb (Db.id o) (Some (Db.au_id NEW)))
                     (Db.user_profiles s)
          then inl (Db.unique_violation "user_profiles_pkey")
          else if existsb (fun o => Db.sql_eqb (Db.email o) (Some e))
                          (Db.user_profiles s)
          then inl (Db.unique_violation "user_profiles_email_key")
          else
            inr (Db.with_user_profiles
                   (Db.user_profiles s
                      ++ [Db.mkProfile
                            (Some (Db.au_id NEW)) (Some e)
                            (Db.COALESCE
                               (Db.json_field_text jsonb_out
                                  (Db.raw_user_meta_data NEW) "full_name") "")
                            (Some 1000) (Some now) (Some now)])
                   (Db.with_auth_users (Db.auth_users s ++ [NEW]) s))
      end.
Proof.
  intros Hp. rewrite (insert_auth_user_provisioned jsonb_out now NEW s Hp).
  destruct (existsb _ (Db.auth_users s)); [reflexivity |].
  unfold Db.handle_new_user, Db.insert_user_profiles.
  replace (Db.has_table "user_profiles" _) with true
    by (symmetry; apply (has_user_profiles_provisioned s Hp)).
  unfold Db.check_constraints, Db.new_tuple.
  cbn [negb Db.or_default Db.id Db.email Db.ins_id Db.ins_email Db.ins_full_name
       Db.ins_points Db.ins_created_at Db.ins_updated_at
       Db.user_profiles Db.auth_users Db.with_auth_users].
  destruct (Db.au_email NEW) as [e |]; [| reflexivity].
  destruct (existsb (fun o => Db.sql_eqb (Db.id o) _) (Db.user_profiles s));
    [reflexivity |].
  destruct (existsb (fun o => Db.sql_eqb (Db.email o) _) (Db.user_profiles s));
    [reflexivity |].
  rewrite existsb_app. cbn [existsb].
  now rewrite String.eqb_refl, orb_true_r.
Qed.

(** An identity without an email cannot sign up. *)
Lemma signup_outcomes_witness :
  Db.provisioned (fst (Db.run_script Db.migration Db.fresh_store))
  /\ Db.insert_auth_user (fun _ => "") 100 (Db.mkAuthUser "u1" None None)
       (fst (Db.run_script Db.migration Db.fresh_store))
     = inl (Db.not_null_violation "email").
Proof.
  assert (Hp : Db.provisioned (fst (Db.run_script Db.migration Db.fresh_store)))
    by (repeat split; reflexivity).
  split; [exact Hp |].
  rewrite (signup_outcomes (fun _ => "") 100 (Db.mkAuthUser "u1" None None) _ Hp).
  reflexivity.
Defined.

(** X15. After a signup in a provisioned store, the new identity's query
    for the row with its id, which is the query both screens make, returns
    exactly the row the trigger inserted.  The same query made by any
    other authenticated identity, by a client without a uid, or by [anon]
    returns nothing. *)
Theorem signup_then_select
        (jsonb_out : Db.jsonb -> string) (now : Db.timestamptz)
        (NEW : Db.auth_user) (other : Db.uuid) (uid : option Db.uuid)
        (s s' : Db.store) :
  Db.provisioned s ->
  Db.insert_auth_user jsonb_out now NEW s = inr s' ->
  other <> Db.au_id NEW ->
  let by_id := fun r => Db.sql_eqb (Db.id r) (Some (Db.au_id NEW)) in
  Db.select_as Db.authenticated (Some (Db.au_id NEW)) by_id s'
  = [Db.mkProfile (Some (Db.au_id NEW)) (Db.au_email NEW)
                  (Db.COALESCE
                     (Db.json_field_text jsonb_out (Db.raw_user_meta_data NEW)
                                         "full_name") "")
                  (Some 1000) (Some now) (Some now)]
  /\ Db.select_as Db.authenticated (Some other) by_id s' = []
  /\ Db.select_as Db.authenticated None by_id s' = []
  /\ Db.select_as Db.anon uid by_id s' = [].
Proof.
  intros Hp Hins Hother by_id.
  rewrite (insert_auth_user_provisioned jsonb_out now NEW s Hp) in Hins.
  destruct (existsb _ (Db.auth_users s)); [discriminate |].
  destruct (handle_new_user_inserts _ _ _ _ _ Hins) as (-> & Hid & _).
  cbn [Db.user_profiles Db.with_auth_users] in Hid.
  set (s' := Db.with_user_profiles _ _).
  assert (Hp' : Db.provisioned s') by (apply (provisioned_same_catalog s); trivial).
  assert (Hold : filter by_id (Db.user_profiles s) = [])
    by (apply existsb_false_filter_nil; exact Hid).
  assert (Hsel : forall r u rows,
             filter (fun row => by_id row && Db.using_passes s' Db.SELECT r u row) rows
             = filter (fun row => match r with
                                  | Db.authenticated => Db.sql_eqb u (Db.id row)
                                  | Db.anon => false
                                  end)
                      (filter by_id rows)).
  { intros r u rows. induction rows as [| row rows IH]; [reflexivity |].
    cbn [filter]. rewrite (using_passes_provisioned s' Db.SELECT r u row Hp').
    destruct (by_id row); cbn [andb filter]; rewrite IH; reflexivity. }
  unfold Db.select_as. rewrite !Hsel.
  subst s'. cbn [Db.user_profiles Db.with_user_profiles Db.with_auth_users].
  rewrite filter_app, Hold. subst by_id.
  cbn [app filter Db.id Db.sql_eqb]. rewrite String.eqb_refl. cbn [filter Db.id Db.sql_eqb].
  rewrite String.eqb_refl.
  destruct (String.eqb_spec other (Db.au_id NEW)); [contradiction |].
  repeat split.
Qed.

Lemma signup_then_select_witness :
  let s := fst (Db.run_script Db.migration Db.fresh_store) in
  let NEW := Db.mkAuthUser "u1" (Some "a@x.com") None in
  let row := Db.mkProfile (Some "u1") (Some "a@x.com") (Some "") (Some 1000)
                          (Some 100) (Some 100) in
  let s' := Db.with_user_profiles [row] (Db.with_auth_users [NEW] s) in
  Db.provisioned s
  /\ Db.insert_auth_user (fun _ => "") 100 NEW s = inr s'
  /\ "u2" <> Db.au_id NEW
  /\ Db.select_as Db.authenticated (Some "u1")
       (fun r => Db.sql_eqb (Db.id r) (Some "u1")) s' = [row]
  /\ Db.select_as Db.authenticated (Some "u2")
       (fun r => Db.sql_eqb (Db.id r) (Some "u1")) s' = [].
Proof.
  intros s NEW row s'.
  assert (Hp : Db.provisioned s) by (repeat split; reflexivity).
  assert (Hins : Db.insert_auth_user (fun _ => "") 100 NEW s = inr s') by reflexivity.
  assert (Hne : "u2" <> Db.au_id NEW) by discriminate.
  split; [exact Hp |]. split; [exact Hins |]. split; [exact Hne |].
  pose proof (signup_then_select (fun _ => "") 100 NEW "u2" None s s' Hp Hins Hne) as H.
  cbv zeta in H. destruct H as (H1 & H2 & _).
  split; [exact H1 | exact H2].
Defined.

(** ** What a client may update *)




Lemma update_rows_refused (now : Db.timestamptz) (s : Db.store)
      (u : Db.profile_update) (target check : Db.user_profile -> bool) :
  Db.provisioned s ->
  (forall r, target r = true ->
             check (Db.update_updated_at_column now (Db.apply_set u r)) = false) ->
  forall todo done,
    existsb target todo = true ->
    Db.update_rows now s u target check done todo
    = inl (Db.row_security_violation "user_profiles").
Proof.
  intros Hp Hcheck. induction todo as [| OLD rest IH]; intros done; cbn; [discriminate |].
  destruct (target OLD) eqn:Ht; cbn.
  - intros _. now rewrite (before_update_provisioned now s _ Hp), (Hcheck OLD Ht).
  - apply IH.
Qed.

(** X17. A client cannot hand its profile to another identity: in a
    provisioned store, an [UPDATE] by an authenticated client that assigns
    [id] a value other than the client's own uid (NULL included) is
    refused as soon as it selects one of the client's rows, and then
    changes nothing: with a row-security violation, or, when it also
    assigns points that do not fit the column, with "integer out of
    range", which the engine meets first. *)
Theorem client_cannot_reassign_id
        (now : Db.timestamptz) (me : Db.uuid) (x : option Db.uuid)
        (u : Db.profile_update) (where_ : Db.user_profile -> bool) (s : Db.store) :
  Db.provisioned s ->
  Db.set_id u = Some x ->
  Db.sql_eqb (Some me) x = false ->
  existsb (fun r => where_ r && Db.sql_eqb (Some me) (Db.id r)) (Db.user_profiles s)
  = true ->
  Db.update_as Db.authenticated (Some me) now u where_ s
  = inl (if Db.update_fits u
         then Db.row_security_violation "user_profiles"
         else Db.numeric_value_out_of_range "integer").
Proof.
  intros Hp Hsid Hx Hex. unfold Db.update_as.
  rewrite (has_user_profiles_provisioned s Hp). cbn [negb].
  destruct (Db.update_fits u); cbn [negb]; [| reflexivity].
  rewrite (update_rows_refused now s u _ _ Hp); [reflexivity | |].
  - intros r _. rewrite (check_passes_provisioned s _ _ _ _ Hp).
    unfold Db.apply_set. cbn [Db.id Db.update_updated_at_column].
    rewrite Hsid. exact Hx.
  - rewrite <- Hex. clear Hex.
    induction (Db.user_profiles s) as [| r rows IH]; [reflexivity |].
    cbn [existsb]. rewrite IH, !(using_passes_provisioned s _ _ _ _ Hp).
    now destruct (where_ r), (Db.sql_eqb (Some me) (Db.id r)).
Qed.

Lemma client_cannot_reassign_id_witness :
  let s := Db.mkStore
             [Db.mkTable "auth.users" false; Db.mkTable "user_profiles" true]
             [Db.users_can_read_own_profile; Db.users_can_update_own_profile;
              Db.users_can_insert_own_profile]
             [("handle_new_user", Db.handle_new_user_body);
              ("update_updated_at_column", Db.update_updated_at_column_body)]
             [Db.on_auth_user_created; Db.update_user_profiles_updated_at]
             [Db.mkAuthUser "u1" (Some "a@x.com") None;
              Db.mkAuthUser "u2" None None]
             [Db.mkProfile (Some "u1") (Some "a@x.com") (Some "") (Some 1000)
                           (Some 100) (Some 100)] in
  let u := Db.mkUpdate (Some (Some "u2")) None None None None None in
  Db.provisioned s
  /\ Db.update_as Db.authenticated (Some "u1") 250 u (fun _ => true) s
     = inl (Db.row_security_violation "user_profiles").
Proof.
  intros s u.
  assert (Hp : Db.provisioned s) by (repeat split; reflexivity).
  split; [exact Hp |].
  exact (client_cannot_reassign_id 250 "u1" (Some "u2") u (fun _ => true) s
                                   Hp eq_refl eq_refl eq_refl).
Defined.

(** ** The points stay in the column's range *)






